(** * Muuri: the per-item visibility state machine and the debounce adapter

    A shallow embedding of [src/Item/ItemVisibility.ts], of the parts of
    [src/Item/Item.ts] it calls, and of [src/utils/debounce.ts].

    Conventions of the embedding.
    - A JavaScript [number] (pixel coordinates, durations, timestamps) is an
      integer of [Z]; no claim below depends on fractional values.
    - A user completion callback is an opaque identity ([callback]); calling
      it appends an [Invoke] entry to the effect [log] of the state.  User
      callbacks are taken not to call back into the instance.
    - Every method is a function [State -> State]; an early [return] is the
      branch that gives the state back.
    - Collaborators whose source is not part of [src/] (Emitter, Animator,
      ticker, Grid, the DOM helpers) are modelled from the specification and
      marked as such. *)

From stdpp Require Import gmap strings list fin_maps pretty.

#[local] Open Scope Z_scope.

(** ** Shared vocabulary *)

(** Identity of a completion callback [(isInterrupted, item) => any]. *)
Definition callback := nat.

(** A [StyleDeclaration] object literal: property/value pairs, in insertion
    order (the order of [for (prop in styles)]). *)
Abbreviation StyleDeclaration := (list (string * string)).

(** The two bound finish handlers an [ItemVisibility] passes around as
    [onFinish]: [this._finishShow] and [this._finishHide]. *)
Inductive finish := FinishShow | FinishHide.

(** Calls that leave the instance, in the order they are made. *)
Inductive effect :=
| Invoke (cb : callback) (isInterrupted : bool)
| AnimatorStart (from to : StyleDeclaration) (duration : Z) (easing : string)
| AnimatorStop
| AnimatorDestroy
| TickAdd (itemId : Z)
| TickCancel (itemId : Z)
| LayoutStop.

(** ** Emitter *)

Module Emitter.

(** Modelled from the spec: [src/Emitter/Emitter.ts] is missing.  The
    callback queue of section 4.2: a keyed registry of ordered one-shot
    listeners. *)
Abbreviation t := (gmap string (list callback)).

(** Modelled from the spec: the listeners stored under a key, in
    registration order; none for an unknown key. *)
Definition listeners (key : string) (e : t) : list callback :=
  default [] (e !! key).

(** Modelled from the spec: [on(queueKey, listener)] appends [listener] to
    the queue's ordered sequence; duplicates are kept. *)
Definition on (key : string) (listener : callback) (e : t) : t :=
  <[key := listeners key e ++ [listener]]> e.

(** Modelled from the spec: [burst(queueKey, ...args)] clears the queue of
    the key and invokes every listener that was stored, in order.  The
    result is the drained listeners and the emitter left behind. *)
Definition burst (key : string) (e : t) : list callback * t :=
  (listeners key e, delete key e).

(** Modelled from the spec: [clear(queueKey)] drops all listeners of a key
    without invoking them. *)
Definition clear (key : string) (e : t) : t := delete key e.

End Emitter.

(** ** Grid settings and the grid's cached geometry *)

Record Settings := {
  itemVisibleClass : string;
  itemHiddenClass : string;
  visibleStyles : option StyleDeclaration;
  hiddenStyles : option StyleDeclaration;
  showDuration : Z;
  hideDuration : Z;
  showEasing : string;
  hideEasing : string;
  _animationWindowing : bool
}.

(** The part of [Grid] the visibility handler reads and writes: the settings,
    the cached bounding rectangle and borders, and the one-shot refresh flag
    of [GridPrivate]. *)
Record Grid := {
  settings : Settings;
  _rect_left : Z;
  _rect_top : Z;
  _borderLeft : Z;
  _borderTop : Z;
  _itemVisibilityNeedsDimensionRefresh : bool
}.

(** What the host environment answers when it is measured. *)
Record Host := {
  innerWidth : Z;                       (* window.innerWidth *)
  innerHeight : Z;                      (* window.innerHeight *)
  VIEWPORT_THRESHOLD : Z;               (* constants.ts, missing *)
  computedStyle : string -> string;     (* computed style of the child *)
  measured_rect_left : Z;               (* grid element's client rect *)
  measured_rect_top : Z;
  measured_borderLeft : Z;
  measured_borderTop : Z;
  measured_translate : Z * Z            (* getTranslate(item.element) *)
}.

(** Modelled from the spec: [src/utils/isInViewport.ts] is missing.  Whether
    the rectangle [width x height] at [(left, top)] intersects the viewport
    grown by [viewportThreshold] on every side. *)
Definition isInViewport (h : Host)
    (width height left top viewportThreshold : Z) : bool :=
  negb ((left + width <=? - viewportThreshold)
        || (innerWidth h + viewportThreshold <=? left)
        || (top + height <=? - viewportThreshold)
        || (innerHeight h + viewportThreshold <=? top)).

(** ** Item *)

Module Item.

Record t := {
  id : Z;
  left : Z;
  top : Z;
  width : Z;
  height : Z;
  marginLeft : Z;
  marginTop : Z;
  _isActive : bool;
  _translateX : option Z;
  _translateY : option Z;
  _containerDiffX : Z;
  _containerDiffY : Z
}.

Definition isActive (it : t) : bool := _isActive it.

(** [_getTranslate]: the cached translate values, or the values read from
    the DOM when either of them is [undefined]. *)
Definition _getTranslate (h : Host) (it : t) : Z * Z :=
  match _translateX it, _translateY it with
  | Some x, Some y => (x, y)
  | _, _ => measured_translate h
  end.

Definition _getClientRootPosition (g : Grid) (it : t) : Z * Z :=
  (_rect_left g + _borderLeft g - _containerDiffX it,
   _rect_top g + _borderTop g - _containerDiffY it).

Definition _isInViewport (h : Host) (g : Grid) (it : t)
    (x y viewportThreshold : Z) : bool :=
  let rootPosition := _getClientRootPosition g it in
  isInViewport h (width it) (height it)
    (rootPosition.1 + marginLeft it + x)
    (rootPosition.2 + marginTop it + y)
    viewportThreshold.

End Item.

(** ** ItemVisibility *)

Module ItemVisibility.

(** [item.element]: its class list and its inline [display]. *)
Record Element := {
  classList : gset string;
  style_display : string
}.

(** Modelled from the spec: [src/Animator/Animator.ts] is missing.  The
    running animation handle of the [Animator] capability: the styles it
    interpolates between, its options and its completion callback, which
    can be nulled. *)
Record Animation := {
  propsFrom : StyleDeclaration;
  propsTo : StyleDeclaration;
  anim_duration : Z;
  anim_easing : string;
  onfinish : option finish
}.

(** The closure created by one run of [_startAnimation] and shared by the
    READ and the WRITE callback it registers: the captured arguments and
    constants, and the three [let] variables the READ callback fills. *)
Record Closure := {
  toVisible : bool;
  targetStyles : StyleDeclaration;
  duration : Z;
  easing : string;
  onFinish : option finish;
  currentStyles : option StyleDeclaration;
  tX : Z;
  tY : Z
}.

Record State := {
  _isHidden : bool;
  _isHiding : bool;
  _isShowing : bool;
  _isDestroyed : bool;
  _currentStyleProps : list string;
  _queue : string;
  item : Item.t;
  grid : Grid;                         (* item.getGrid() *)
  host : Host;
  emitter : Emitter.t;                 (* item._emitter *)
  element : Element;                   (* item.element *)
  childElement : gmap string string;   (* childElement.style *)
  animation : option Animation;        (* animator.animation *)
  ticker : option Closure;             (* visibility tick of item.id *)
  log : list effect
}.

(** Field updates. *)

Definition set_isHidden v (s : State) : State :=
  {| _isHidden := v; _isHiding := _isHiding s; _isShowing := _isShowing s;
     _isDestroyed := _isDestroyed s;
     _currentStyleProps := _currentStyleProps s; _queue := _queue s;
     item := item s; grid := grid s; host := host s; emitter := emitter s;
     element := element s; childElement := childElement s;
     animation := animation s; ticker := ticker s; log := log s |}.

Definition set_isHiding v (s : State) : State :=
  {| _isHidden := _isHidden s; _isHiding := v; _isShowing := _isShowing s;
     _isDestroyed := _isDestroyed s;
     _currentStyleProps := _currentStyleProps s; _queue := _queue s;
     item := item s; grid := grid s; host := host s; emitter := emitter s;
     element := element s; childElement := childElement s;
     animation := animation s; ticker := ticker s; log := log s |}.

Definition set_isShowing v (s : State) : State :=
  {| _isHidden := _isHidden s; _isHiding := _isHiding s; _isShowing := v;
     _isDestroyed := _isDestroyed s;
     _currentStyleProps := _currentStyleProps s; _queue := _queue s;
     item := item s; grid := grid s; host := host s; emitter := emitter s;
     element := element s; childElement := childElement s;
     animation := animation s; ticker := ticker s; log := log s |}.

Definition set_isDestroyed v (s : State) : State :=
  {| _isHidden := _isHidden s; _isHiding := _isHiding s;
     _isShowing := _isShowing s; _isDestroyed := v;
     _currentStyleProps := _currentStyleProps s; _queue := _queue s;
     item := item s; grid := grid s; host := host s; emitter := emitter s;
     element := element s; childElement := childElement s;
     animation := animation s; ticker := ticker s; log := log s |}.

Definition set_currentStyleProps v (s : State) : State :=
  {| _isHidden := _isHidden s; _isHiding := _isHiding s;
     _isShowing := _isShowing s; _isDestroyed := _isDestroyed s;
     _currentStyleProps := v; _queue := _queue s; item := item s;
     grid := grid s; host := host s; emitter := emitter s;
     element := element s; childElement := childElement s;
     animation := animation s; ticker := ticker s; log := log s |}.

Definition set_grid v (s : State) : State :=
  {| _isHidden := _isHidden s; _isHiding := _isHiding s;
     _isShowing := _isShowing s; _isDestroyed := _isDestroyed s;
     _currentStyleProps := _currentStyleProps s; _queue := _queue s;
     item := item s; grid := v; host := host s; emitter := emitter s;
     element := element s; childElement := childElement s;
     animation := animation s; ticker := ticker s; log := log s |}.

Definition set_emitter v (s : State) : State :=
  {| _isHidden := _isHidden s; _isHiding := _isHiding s;
     _isShowing := _isShowing s; _isDestroyed := _isDestroyed s;
     _currentStyleProps := _currentStyleProps s; _queue := _queue s;
     item := item s; grid := grid s; host := host s; emitter := v;
     element := element s; childElement := childElement s;
     animation := animation s; ticker := ticker s; log := log s |}.

Definition set_element v (s : State) : State :=
  {| _isHidden := _isHidden s; _isHiding := _isHiding s;
     _isShowing := _isShowing s; _isDestroyed := _isDestroyed s;
     _currentStyleProps := _currentStyleProps s; _queue := _queue s;
     item := item s; grid := grid s; host := host s; emitter := emitter s;
     element := v; childElement := childElement s;
     animation := animation s; ticker := ticker s; log := log s |}.

Definition set_childElement v (s : State) : State :=
  {| _isHidden := _isHidden s; _isHiding := _isHiding s;
     _isShowing := _isShowing s; _isDestroyed := _isDestroyed s;
     _currentStyleProps := _currentStyleProps s; _queue := _queue s;
     item := item s; grid := grid s; host := host s; emitter := emitter s;
     element := element s; childElement := v; animation := animation s;
     ticker := ticker s; log := log s |}.

Definition set_animation v (s : State) : State :=
  {| _isHidden := _isHidden s; _isHiding := _isHiding s;
     _isShowing := _isShowing s; _isDestroyed := _isDestroyed s;
     _currentStyleProps := _currentStyleProps s; _queue := _queue s;
     item := item s; grid := grid s; host := host s; emitter := emitter s;
     element := element s; childElement := childElement s; animation := v;
     ticker := ticker s; log := log s |}.

Definition set_ticker v (s : State) : State :=
  {| _isHidden := _isHidden s; _isHiding := _isHiding s;
     _isShowing := _isShowing s; _isDestroyed := _isDestroyed s;
     _currentStyleProps := _currentStyleProps s; _queue := _queue s;
     item := item s; grid := grid s; host := host s; emitter := emitter s;
     element := element s; childElement := childElement s;
     animation := animation s; ticker := v; log := log s |}.

Definition set_log v (s : State) : State :=
  {| _isHidden := _isHidden s; _isHiding := _isHiding s;
     _isShowing := _isShowing s; _isDestroyed := _isDestroyed s;
     _currentStyleProps := _currentStyleProps s; _queue := _queue s;
     item := item s; grid := grid s; host := host s; emitter := emitter s;
     element := element s; childElement := childElement s;
     animation := animation s; ticker := ticker s; log := v |}.


Definition emit (e : effect) (s : State) : State := set_log (log s ++ [e]) s.

(** *** Collaborators *)

(** [item._emitter.on(this._queue, callback)]. *)
Definition emitter_on (cb : callback) (s : State) : State :=
  set_emitter (Emitter.on (_queue s) cb (emitter s)) s.

(** [callback && item._emitter.on(this._queue, callback)], where [callback]
    is [null] unless [onFinish] is a function. *)
Definition emitter_on_opt (cb : option callback) (s : State) : State :=
  match cb with Some f => emitter_on f s | None => s end.

(** [item._emitter.burst(this._queue, isInterrupted, item)]: the queue is
    drained and each drained listener is called with the flag. *)
Definition emitter_burst (isInterrupted : bool) (s : State) : State :=
  let '(ls, e) := Emitter.burst (_queue s) (emitter s) in
  set_log (log s ++ map (fun cb => Invoke cb isInterrupted) ls)
    (set_emitter e s).

(** [item._emitter.clear(this._queue)]. *)
Definition emitter_clear (s : State) : State :=
  set_emitter (Emitter.clear (_queue s) (emitter s)) s.

(** Modelled from the spec: [src/utils/addClass.ts] is missing; it adds a
    class name to the element. *)
Definition addClass (className : string) (s : State) : State :=
  set_element {| classList := {[className]} ∪ classList (element s);
                 style_display := style_display (element s) |} s.

(** Modelled from the spec: [src/utils/removeClass.ts] is missing; it
    removes a class name from the element. *)
Definition removeClass (className : string) (s : State) : State :=
  set_element {| classList := classList (element s) ∖ {[className]};
                 style_display := style_display (element s) |} s.

(** [element.style.display = value]. *)
Definition set_display (value : string) (s : State) : State :=
  set_element {| classList := classList (element s);
                 style_display := value |} s.

(** Modelled from the spec: [src/utils/setStyles.ts] is missing; it sets a
    mapping of inline style properties on an element. *)
Definition setStyles_util (styles : StyleDeclaration)
    (style : gmap string string) : gmap string string :=
  foldl (fun m pv => <[pv.1 := pv.2]> m) style styles.

(** [setStyles(childElement, targetStyles)]. *)
Definition setStyles_child (styles : StyleDeclaration) (s : State) : State :=
  set_childElement (setStyles_util styles (childElement s)) s.

(** Modelled from the spec: [src/utils/getCurrentStyles.ts] is missing; it
    computes the current resolved style values for the property names of
    [styles]. *)
Definition getCurrentStyles (h : Host) (styles : StyleDeclaration)
    : StyleDeclaration :=
  map (fun pv => (pv.1, computedStyle h pv.1)) styles.

(** Modelled from the spec: the ticker ([src/ticker.ts]) is missing.
    [addVisibilityTick(item.id, read, write)] registers the READ/WRITE pair
    of one closure under the item's id and replaces a pending one. *)
Definition addVisibilityTick (c : Closure) (s : State) : State :=
  emit (TickAdd (Item.id (item s))) (set_ticker (Some c) s).

(** Modelled from the spec: [cancelVisibilityTick(item.id)] removes the
    pending pair of the item's id, if any. *)
Definition cancelVisibilityTick (s : State) : State :=
  emit (TickCancel (Item.id (item s))) (set_ticker None s).

(** Modelled from the spec: [animator.stop()] of the [Animator] capability
    ends the running animation and leaves the styles as they are. *)
Definition animator_stop (s : State) : State :=
  emit AnimatorStop (set_animation None s).

(** Modelled from the spec: [animator.start(from, to, options)] makes the
    given animation the running one. *)
Definition animator_start (from to : StyleDeclaration) (d : Z)
    (e : string) (f : option finish) (s : State) : State :=
  emit (AnimatorStart from to d e)
    (set_animation
       (Some {| propsFrom := from; propsTo := to; anim_duration := d;
                anim_easing := e; onfinish := f |}) s).

(** Modelled from the spec: [animator.destroy()] stops the animator for
    good. *)
Definition animator_destroy (s : State) : State :=
  emit AnimatorDestroy (set_animation None s).

(** [animator.animation.onfinish = null], when an animation is running. *)
Definition clear_onfinish (s : State) : State :=
  match animation s with
  | Some a =>
      set_animation
        (Some {| propsFrom := propsFrom a; propsTo := propsTo a;
                 anim_duration := anim_duration a;
                 anim_easing := anim_easing a; onfinish := None |}) s
  | None => s
  end.

(** Modelled from the spec: [Grid._updateBoundingRect] and
    [Grid._updateBorders(true, false, true, false)] refresh the cached
    bounding rectangle and the left and top borders from the DOM. *)
Definition refreshed (h : Host) (g : Grid) (needsRefresh : bool) : Grid :=
  {| settings := settings g;
     _rect_left := measured_rect_left h;
     _rect_top := measured_rect_top h;
     _borderLeft := measured_borderLeft h;
     _borderTop := measured_borderTop h;
     _itemVisibilityNeedsDimensionRefresh := needsRefresh |}.

(** [grid._itemVisibilityNeedsDimensionRefresh = value]. *)
Definition set_needsRefresh (value : bool) (g : Grid) : Grid :=
  {| settings := settings g;
     _rect_left := _rect_left g;
     _rect_top := _rect_top g;
     _borderLeft := _borderLeft g;
     _borderTop := _borderTop g;
     _itemVisibilityNeedsDimensionRefresh := value |}.

(** *** The methods of [ItemVisibility] *)

(** [callback && callback(false, item)]: a direct, synchronous call. *)
Definition call_opt (cb : option callback) (isInterrupted : bool)
    (s : State) : State :=
  match cb with Some f => emit (Invoke f isInterrupted) s | None => s end.

(** [_removeCurrentStyles]: clears every tracked inline property of the child
    element and empties the list of tracked properties. *)
Definition _removeCurrentStyles (s : State) : State :=
  set_currentStyleProps []
    (set_childElement
       (foldl (fun m prop => <[prop := EmptyString]> m) (childElement s)
          (_currentStyleProps s)) s).

(** [setStyles(styles)], the method. *)
Definition setStyles (styles : StyleDeclaration) (s : State) : State :=
  let s := _removeCurrentStyles s in
  foldl (fun s pv =>
           set_childElement (<[pv.1 := pv.2]> (childElement s))
             (set_currentStyleProps (_currentStyleProps s ++ [pv.1]) s))
    s styles.

(** The constructor.  [child] is [element.children[0]]; without it the
    constructor throws, which is [None] here.  [settings.visibleStyles] and
    [settings.hiddenStyles] are iterated with [for ... in], which runs zero
    times over [undefined]. *)
Definition new (it : Item.t) (g : Grid) (h : Host) (e : Emitter.t)
    (el : Element) (child : option (gmap string string)) : option State :=
  match child with
  | None => None
  | Some childStyle =>
      let isActive := Item.isActive it in
      let s :=
        {| _isHidden := negb isActive;
           _isHiding := false;
           _isShowing := false;
           _isDestroyed := false;
           _currentStyleProps := [];
           _queue := "visibility-" +:+ pretty (Item.id it);
           item := it; grid := g; host := h; emitter := e;
           element := el; childElement := childStyle;
           animation := None; ticker := None; log := [] |} in
      let s := set_display (if isActive then EmptyString else "none") s in
      let s := addClass (if isActive then itemVisibleClass (settings g)
                         else itemHiddenClass (settings g)) s in
      Some (setStyles
              (default [] (if isActive then visibleStyles (settings g)
                           else hiddenStyles (settings g))) s)
  end.

(** [_finishShow]. *)
Definition _finishShow (s : State) : State :=
  if _isHidden s then s
  else
    let s := set_isShowing false s in
    emitter_burst false s.

(** [_finishHide].  [item._layout.stop(true, 0, 0)] belongs to the layout
    handler, which is not part of [src/]; the call is logged. *)
Definition _finishHide (s : State) : State :=
  if negb (_isHidden s) then s
  else
    let s := set_isHiding false s in
    let s := emit LayoutStop s in
    let s := set_display "none" s in
    emitter_burst false s.

(** [onFinish && onFinish()] for the bound handlers. *)
Definition call_finish (f : option finish) (s : State) : State :=
  match f with
  | Some FinishShow => _finishShow s
  | Some FinishHide => _finishHide s
  | None => s
  end.

(** The guard both tick callbacks start with:
    [this._isDestroyed || (toVisible ? !this._isShowing : !this._isHiding)]. *)
Definition superseded (c : Closure) (s : State) : bool :=
  _isDestroyed s
  || (if toVisible c then negb (_isShowing s) else negb (_isHiding s)).

(** The READ callback of [_startAnimation]. *)
Definition readCallback (c : Closure) (s : State) : Closure * State :=
  if superseded c s then (c, s)
  else
    let '(x, y) := Item._getTranslate (host s) (item s) in
    let c :=
      {| toVisible := toVisible c; targetStyles := targetStyles c;
         duration := duration c; easing := easing c;
         onFinish := onFinish c;
         currentStyles := Some (getCurrentStyles (host s) (targetStyles c));
         tX := x; tY := y |} in
    if _animationWindowing (settings (grid s))
       && _itemVisibilityNeedsDimensionRefresh (grid s)
    then (c, set_grid (refreshed (host s) (grid s) false) s)
    else (c, s).

(** The last statement of the WRITE callback:
    [if (currentStyles) animator.start(currentStyles, targetStyles, ...)]. *)
Definition startIfMeasured (c : Closure) (s : State) : State :=
  match currentStyles c with
  | Some from =>
      animator_start from (targetStyles c) (duration c) (easing c)
        (onFinish c) s
  | None => s
  end.

(** The WRITE callback of [_startAnimation]. *)
Definition writeCallback (c : Closure) (s : State) : State :=
  if superseded c s then s
  else
    let threshold := VIEWPORT_THRESHOLD (host s) in
    if _animationWindowing (settings (grid s))
       && negb (Item._isInViewport (host s) (grid s) (item s)
                  (tX c) (tY c) threshold)
    then
      if negb (Item.isActive (item s))
         || negb (Item._isInViewport (host s) (grid s) (item s)
                    (Item.left (item s) + Item._containerDiffX (item s))
                    (Item.top (item s) + Item._containerDiffY (item s))
                    threshold)
      then
        let s := setStyles_child (targetStyles c) s in
        let s := animator_stop s in
        call_finish (onFinish c) s
      else startIfMeasured c s
    else startIfMeasured c s.

(** [_startAnimation(toVisible, instant, onFinish)]. *)
Definition _startAnimation (toVisible instant : bool)
    (onFinish : option finish) (s : State) : State :=
  if _isDestroyed s then s
  else
    let settings := settings (grid s) in
    let targetStyles :=
      if toVisible then visibleStyles settings else hiddenStyles settings in
    let duration :=
      if toVisible then showDuration settings else hideDuration settings in
    let easing :=
      if toVisible then showEasing settings else hideEasing settings in
    let isInstant := instant || (duration <=? 0) in
    match targetStyles with
    | None =>
        let s := animator_stop s in
        call_finish onFinish s
    | Some targetStyles =>
        let s := cancelVisibilityTick s in
        if isInstant then
          let s := setStyles_child targetStyles s in
          let s := animator_stop s in
          call_finish onFinish s
        else
          let s := clear_onfinish s in
          let s := set_grid (set_needsRefresh true (grid s)) s in
          addVisibilityTick
            {| toVisible := toVisible; targetStyles := targetStyles;
               duration := duration; easing := easing;
               onFinish := onFinish;
               currentStyles := None; tX := 0; tY := 0 |} s
    end.

(** [show(instant, onFinish)].  [item.getGrid()] is cast to [Grid] and its
    [settings] are a mandatory field, so [if (settings)] takes its branch. *)
Definition show (instant : bool) (onFinish : option callback) (s : State)
    : State :=
  if _isDestroyed s then s
  else
    let callback := onFinish in
    if negb (_isShowing s) && negb (_isHidden s) then
      call_opt callback false s
    else if _isShowing s && negb instant then
      emitter_on_opt callback s
    else
      let s :=
        if negb (_isShowing s) then
          let s := emitter_burst true s in
          let s := removeClass (itemHiddenClass (settings (grid s))) s in
          let s := addClass (itemVisibleClass (settings (grid s))) s in
          if negb (_isHiding s) then set_display EmptyString s else s
        else s in
      let s := emitter_on_opt callback s in
      let s := set_isShowing true s in
      let s := set_isHiding false (set_isHidden false s) in
      _startAnimation true instant (Some FinishShow) s.

(** [hide(instant, onFinish)]. *)
Definition hide (instant : bool) (onFinish : option callback) (s : State)
    : State :=
  if _isDestroyed s then s
  else
    let callback := onFinish in
    if negb (_isHiding s) && _isHidden s then
      call_opt callback false s
    else if _isHiding s && negb instant then
      emitter_on_opt callback s
    else
      let s :=
        if negb (_isHiding s) then
          let s := emitter_burst true s in
          let s := addClass (itemHiddenClass (settings (grid s))) s in
          removeClass (itemVisibleClass (settings (grid s))) s
        else s in
      let s := emitter_on_opt callback s in
      let s := set_isHidden true (set_isHiding true s) in
      let s := set_isShowing false s in
      _startAnimation false instant (Some FinishHide) s.

(** [stop(processCallbackQueue)]. *)
Definition stop (processCallbackQueue : bool) (s : State) : State :=
  if _isDestroyed s then s
  else if negb (_isHiding s) && negb (_isShowing s) then s
  else
    let s := cancelVisibilityTick s in
    let s := animator_stop s in
    if processCallbackQueue then emitter_burst true s else s.

(** [destroy()]. *)
Definition destroy (s : State) : State :=
  if _isDestroyed s then s
  else
    let s := stop true s in
    let s := emitter_clear s in
    let s := animator_destroy s in
    let s := _removeCurrentStyles s in
    let s := removeClass (itemVisibleClass (settings (grid s))) s in
    let s := removeClass (itemHiddenClass (settings (grid s))) s in
    let s := set_display EmptyString s in
    let s := set_isHiding false (set_isShowing false s) in
    set_isDestroyed true (set_isHidden true s).

(** *** Events that reach an instance *)

(** Modelled from the spec: one animation frame of the ticker, as far as this
    item is concerned.  The pending READ callback runs, then the pending
    WRITE callback; both are taken out of the ticker before they run. *)
Definition frame (s : State) : State :=
  match ticker s with
  | Some c =>
      let s := set_ticker None s in
      let '(c, s) := readCallback c s in
      writeCallback c s
  | None => s
  end.

(** Modelled from the spec: the running animation reaches its end.  The
    handle is released and its completion callback, unless it was nulled,
    is called. *)
Definition animationFinished (s : State) : State :=
  match animation s with
  | Some a => call_finish (onfinish a) (set_animation None s)
  | None => s
  end.

(** What can happen to an instance: a call of one of its methods, a frame
    of the ticker, or the end of the running animation. *)
Inductive call :=
| Show (instant : bool) (onFinish : option callback)
| Hide (instant : bool) (onFinish : option callback)
| Stop (processCallbackQueue : bool)
| Destroy
| FinishShowCall
| FinishHideCall
| Frame
| AnimationFinished.

Definition step (c : call) (s : State) : State :=
  match c with
  | Show instant onFinish => show instant onFinish s
  | Hide instant onFinish => hide instant onFinish s
  | Stop processCallbackQueue => stop processCallbackQueue s
  | Destroy => destroy s
  | FinishShowCall => _finishShow s
  | FinishHideCall => _finishHide s
  | Frame => frame s
  | AnimationFinished => animationFinished s
  end.

(** The state after a sequence of calls, and every state on the way. *)
Fixpoint run (cs : list call) (s : State) : State :=
  match cs with
  | [] => s
  | c :: cs => run cs (step c s)
  end.

Fixpoint states (cs : list call) (s : State) : list State :=
  s :: match cs with
       | [] => []
       | c :: cs => states cs (step c s)
       end.

(** The calls of the public surface that change an instance. *)
Definition is_public (c : call) : bool :=
  match c with
  | Show _ _ | Hide _ _ | Stop _ | Destroy => true
  | _ => false
  end.

(** The callbacks invoked so far, with the flag each one received. *)
Definition invocations (l : list effect) : list (callback * bool) :=
  omap (fun e => match e with
                 | Invoke cb b => Some (cb, b)
                 | _ => None
                 end) l.

(** The pending completion callbacks of the instance. *)
Definition pending (s : State) : list callback :=
  Emitter.listeners (_queue s) (emitter s).

(** The four flags of an instance, in the order
    [(_isHidden, _isHiding, _isShowing, _isDestroyed)]. *)
Definition flags (s : State) : bool * bool * bool * bool :=
  (_isHidden s, _isHiding s, _isShowing s, _isDestroyed s).

(** [_isHiding] and [_isShowing] are not both set. *)
Definition exclusive (s : State) : bool :=
  negb (_isHiding s && _isShowing s).

(** The relation between the flags every reachable instance keeps: a hiding
    item counts as hidden, a showing item does not, and a destroyed instance
    is hidden and at rest. *)
Definition coherent (s : State) : bool :=
  implb (_isHiding s) (_isHidden s)
  && implb (_isShowing s) (negb (_isHidden s))
  && implb (_isDestroyed s)
       (_isHidden s && negb (_isHiding s) && negb (_isShowing s)).

(** In the sequence [l] of invocations, every call of [cb2] with
    [isInterrupted = false] comes after a call of [cb1] with
    [isInterrupted = true]. *)
Definition interrupted_before (cb1 cb2 : callback)
    (l : list (callback * bool)) : Prop :=
  forall pre post, l = pre ++ (cb2, false) :: post -> (cb1, true) ∈ pre.

(** The way a transition ends without interpolation: the target styles are
    set on the child element, the animator is stopped and the finish handler
    is called. *)
Definition finishWithoutAnimation (c : Closure) (s : State) : State :=
  call_finish (onFinish c)
    (animator_stop (setStyles_child (targetStyles c) s)).

(** [!item._isInViewport(x, y, VIEWPORT_THRESHOLD)]. *)
Definition outside (s : State) (x y : Z) : bool :=
  negb (Item._isInViewport (host s) (grid s) (item s) x y
          (VIEWPORT_THRESHOLD (host s))).

(** The translate position the READ callback captured is outside. *)
Definition current_outside (c : Closure) (s : State) : bool :=
  outside s (tX c) (tY c).

(** The position the layout gave the item is outside. *)
Definition target_outside (s : State) : bool :=
  outside s (Item.left (item s) + Item._containerDiffX (item s))
    (Item.top (item s) + Item._containerDiffY (item s)).

(** The position a direction-based reading looks at: the layout position
    when showing, the captured translate position when hiding. *)
Definition relevant_outside (c : Closure) (s : State) : bool :=
  if toVisible c then target_outside s else current_outside c s.

(** The style set [_startAnimation] aims at. *)
Definition target_of (toVisible : bool) (s : State)
    : option StyleDeclaration :=
  if toVisible then visibleStyles (settings (grid s))
  else hiddenStyles (settings (grid s)).

End ItemVisibility.

(** ** debounce *)

Module Debounce.

(** The variables closed over by [tick] and [debouncedFn], the ticker's
    READ-phase registration under the symbol [id], and the number of times
    the action [fn] has run. *)
Record State := {
  timer : Z;
  lastTime : Z;
  isCanceled : bool;
  tick_defined : bool;      (* [tick] is not [undefined] *)
  registered : bool;        (* the ticker holds [tick] under [id] *)
  fn_calls : nat
}.

(** [debounce(fn, durationMs)]: the state the returned function starts in. *)
Definition debounce : State :=
  {| timer := 0; lastTime := 0; isCanceled := false;
     tick_defined := true; registered := false; fn_calls := 0 |}.

(** [fn()]. *)
Definition fn (s : State) : State :=
  {| timer := timer s; lastTime := lastTime s; isCanceled := isCanceled s;
     tick_defined := tick_defined s; registered := registered s;
     fn_calls := S (fn_calls s) |}.

Definition set_timer (v : Z) (s : State) : State :=
  {| timer := v; lastTime := lastTime s; isCanceled := isCanceled s;
     tick_defined := tick_defined s; registered := registered s;
     fn_calls := fn_calls s |}.

Definition set_lastTime (v : Z) (s : State) : State :=
  {| timer := timer s; lastTime := v; isCanceled := isCanceled s;
     tick_defined := tick_defined s; registered := registered s;
     fn_calls := fn_calls s |}.

(** Modelled from the spec: the ticker ([src/ticker.ts]) is missing.
    [ticker.once(PHASE_READ, tick, id)] leaves one pending registration under
    [id]; [ticker.off(PHASE_READ, id)] removes it. *)
Definition set_registered (v : bool) (s : State) : State :=
  {| timer := timer s; lastTime := lastTime s; isCanceled := isCanceled s;
     tick_defined := tick_defined s; registered := v;
     fn_calls := fn_calls s |}.

(** [tick(time)].  [if (lastTime)] is the test that [lastTime] is not zero. *)
Definition tick (time : Z) (s : State) : State :=
  if isCanceled s then s
  else
    let s :=
      if negb (lastTime s =? 0)
      then set_timer (timer s - (time - lastTime s)) s else s in
    let s := set_lastTime time s in
    if 0 <? timer s then
      if tick_defined s then set_registered true s else s
    else
      let s := set_timer 0 (set_lastTime 0 s) in
      fn s.

(** [debouncedFn(cancel = false)]. *)
Definition debouncedFn (durationMs : Z) (cancel : bool) (s : State)
    : State :=
  if isCanceled s then s
  else if durationMs <=? 0 then
    if negb cancel then fn s else s
  else if cancel then
    {| timer := 0; lastTime := 0; isCanceled := true;
       tick_defined := false; registered := false;
       fn_calls := fn_calls s |}
  else if timer s <=? 0 then
    let s := set_timer durationMs s in
    if tick_defined s then tick 0 s else s
  else set_timer durationMs s.

(** What can happen to a debounced function: it is called, or the ticker
    runs a frame at [time] and calls the pending registration, if any. *)
Inductive event :=
| Call (cancel : bool)
| TickerFrame (time : Z).

Definition step (durationMs : Z) (e : event) (s : State) : State :=
  match e with
  | Call cancel => debouncedFn durationMs cancel s
  | TickerFrame time =>
      if registered s then tick time (set_registered false s) else s
  end.

Fixpoint run (durationMs : Z) (es : list event) (s : State) : State :=
  match es with
  | [] => s
  | e :: es => run durationMs es (step durationMs e s)
  end.

End Debounce.

(** ** Concrete instances *)

Module Examples.

Import ItemVisibility.

Definition ex_settings : Settings :=
  {| itemVisibleClass := "muuri-item-shown";
     itemHiddenClass := "muuri-item-hidden";
     visibleStyles := Some [("opacity", "1"); ("transform", "scale(1)")];
     hiddenStyles := Some [("opacity", "0"); ("transform", "scale(0.5)")];
     showDuration := 300;
     hideDuration := 300;
     showEasing := "ease";
     hideEasing := "ease";
     _animationWindowing := true |}.

Definition ex_grid : Grid :=
  {| settings := ex_settings;
     _rect_left := 0; _rect_top := 0; _borderLeft := 0; _borderTop := 0;
     _itemVisibilityNeedsDimensionRefresh := false |}.

Definition ex_host : Host :=
  {| innerWidth := 1024; innerHeight := 768; VIEWPORT_THRESHOLD := 100;
     computedStyle := fun _ => "1";
     measured_rect_left := 0; measured_rect_top := 0;
     measured_borderLeft := 0; measured_borderTop := 0;
     measured_translate := (0, 0) |}.

(** An active item drawn at the origin of the viewport whose layout
    position lies far to the right of it. *)
Definition ex_item : Item.t :=
  {| Item.id := 7;
     Item.left := 5000; Item.top := 0;
     Item.width := 100; Item.height := 100;
     Item.marginLeft := 0; Item.marginTop := 0;
     Item._isActive := true;
     Item._translateX := Some 0; Item._translateY := Some 0;
     Item._containerDiffX := 0; Item._containerDiffY := 0 |}.

Definition ex_element : Element :=
  {| classList := {["muuri-item"]}; style_display := EmptyString |}.

(** The instance the constructor builds for [ex_item]: visible. *)
Definition ex_visible : State :=
  {| _isHidden := false; _isHiding := false; _isShowing := false;
     _isDestroyed := false;
     _currentStyleProps := ["opacity"; "transform"];
     _queue := "visibility-7";
     item := ex_item; grid := ex_grid; host := ex_host;
     emitter := ∅;
     element := {| classList := {["muuri-item-shown"]} ∪ {["muuri-item"]};
                   style_display := EmptyString |};
     childElement := <["transform" := "scale(1)"]> (<["opacity" := "1"]> ∅);
     animation := None; ticker := None; log := [] |}.

(** Hidden at once, then asked to show with callback [1]: showing, with the
    tick pair pending and [1] in the queue. *)
Definition ex_showing : State :=
  run [Hide true None; Show false (Some 1%nat)] ex_visible.

(** Asked to hide with callback [1]: hiding. *)
Definition ex_hiding : State :=
  run [Hide false (Some 1%nat)] ex_visible.

(** The frame of [ex_showing] between its two phases: the closure and the
    state the READ callback leaves for the WRITE callback. *)
Definition ex_between_phases : Closure * State :=
  match ticker ex_showing with
  | Some c => readCallback c (set_ticker None ex_showing)
  | None =>
      ({| toVisible := true; targetStyles := []; duration := 0;
          easing := EmptyString; onFinish := None; currentStyles := None;
          tX := 0; tY := 0 |}, ex_showing)
  end.

(** Settings whose visible style set is the empty object. *)
Definition ex_settings_empty : Settings :=
  {| itemVisibleClass := "muuri-item-shown";
     itemHiddenClass := "muuri-item-hidden";
     visibleStyles := Some [];
     hiddenStyles := Some [];
     showDuration := 300;
     hideDuration := 300;
     showEasing := "ease";
     hideEasing := "ease";
     _animationWindowing := false |}.

(** Settings without style sets. *)
Definition ex_settings_none : Settings :=
  {| itemVisibleClass := "muuri-item-shown";
     itemHiddenClass := "muuri-item-hidden";
     visibleStyles := None;
     hiddenStyles := None;
     showDuration := 300;
     hideDuration := 300;
     showEasing := "ease";
     hideEasing := "ease";
     _animationWindowing := false |}.

Definition with_settings (st : Settings) (s : State) : State :=
  set_grid
    {| settings := st;
       _rect_left := _rect_left (grid s); _rect_top := _rect_top (grid s);
       _borderLeft := _borderLeft (grid s);
       _borderTop := _borderTop (grid s);
       _itemVisibilityNeedsDimensionRefresh :=
         _itemVisibilityNeedsDimensionRefresh (grid s) |} s.

(** [ex_showing] in a grid whose style sets are empty objects, and in a grid
    that has none. *)
Definition ex_showing_empty : State :=
  with_settings ex_settings_empty ex_showing.

Definition ex_showing_none : State := with_settings ex_settings_none ex_showing.

(** An item that is kept out of the layout and is drawn left of the
    viewport: what [ex_hiding] is after the grid removed it. *)
Definition ex_item_gone : Item.t :=
  {| Item.id := 7;
     Item.left := 0; Item.top := 0;
     Item.width := 100; Item.height := 100;
     Item.marginLeft := 0; Item.marginTop := 0;
     Item._isActive := false;
     Item._translateX := Some (-5000); Item._translateY := Some 0;
     Item._containerDiffX := 0; Item._containerDiffY := 0 |}.

Definition ex_hiding_gone : State :=
  {| _isHidden := true; _isHiding := true; _isShowing := false;
     _isDestroyed := false;
     _currentStyleProps := _currentStyleProps ex_hiding;
     _queue := _queue ex_hiding;
     item := ex_item_gone; grid := grid ex_hiding; host := ex_host;
     emitter := emitter ex_hiding;
     element := element ex_hiding;
     childElement := childElement ex_hiding;
     animation := None; ticker := None; log := log ex_hiding |}.

(** The closure of [ex_hiding]'s tick pair with the translate position of
    [ex_item_gone] captured. *)
Definition ex_hide_closure : Closure :=
  {| toVisible := false;
     targetStyles := [("opacity", "0"); ("transform", "scale(0.5)")];
     duration := 300; easing := "ease"; onFinish := Some FinishHide;
     currentStyles := Some [("opacity", "1"); ("transform", "1")];
     tX := -5000; tY := 0 |}.

End Examples.

(** ** More of [Item]: layout membership, translate cache, status getters *)

Module ItemMethods.

Import ItemVisibility.

(** The item with [_isActive], [left] and [top] written. *)
Definition with_layout (active : bool) (l t : Z) (it : Item.t) : Item.t :=
  {| Item.id := Item.id it;
     Item.left := l; Item.top := t;
     Item.width := Item.width it; Item.height := Item.height it;
     Item.marginLeft := Item.marginLeft it;
     Item.marginTop := Item.marginTop it;
     Item._isActive := active;
     Item._translateX := Item._translateX it;
     Item._translateY := Item._translateY it;
     Item._containerDiffX := Item._containerDiffX it;
     Item._containerDiffY := Item._containerDiffY it |}.

(** [_addToLayout(left = 0, top = 0)]; an omitted argument is [None]. *)
Definition _addToLayout (left top : option Z) (it : Item.t) : Item.t :=
  if Item.isActive it then it
  else with_layout true (default 0 left) (default 0 top) it.

(** [_removeFromLayout()]. *)
Definition _removeFromLayout (it : Item.t) : Item.t :=
  if negb (Item.isActive it) then it
  else with_layout false 0 0 it.

(** The item with [_translateX] and [_translateY] written. *)
Definition with_translate (x y : option Z) (it : Item.t) : Item.t :=
  {| Item.id := Item.id it;
     Item.left := Item.left it; Item.top := Item.top it;
     Item.width := Item.width it; Item.height := Item.height it;
     Item.marginLeft := Item.marginLeft it;
     Item.marginTop := Item.marginTop it;
     Item._isActive := Item._isActive it;
     Item._translateX := x;
     Item._translateY := y;
     Item._containerDiffX := Item._containerDiffX it;
     Item._containerDiffY := Item._containerDiffY it |}.

(** [this._translateX === x && this._translateY === y]; [undefined] is
    equal to no number. *)
Definition translate_is (x y : Z) (it : Item.t) : bool :=
  match Item._translateX it, Item._translateY it with
  | Some a, Some b => (a =? x) && (b =? y)
  | _, _ => false
  end.

(** [_setTranslate(x, y)].  The second component is the write to the
    element's transform style, [Some (x, y)] for
    [createTranslate(x, y, settings.translate3d)], or [None] when the write
    is skipped. *)
Definition _setTranslate (x y : Z) (it : Item.t)
    : Item.t * option (Z * Z) :=
  if translate_is x y it then (it, None)
  else (with_translate (Some x) (Some y) it, Some (x, y)).

(** [isVisible()], [isShowing()] and [isHiding()] of the item, read off its
    visibility handler. *)
Definition isVisible (s : State) : bool := negb (_isHidden s).

Definition isShowing (s : State) : bool := _isShowing s.

Definition isHiding (s : State) : bool := _isHiding s.

End ItemMethods.

(** ** Observations used in the statements below *)

Module Observations.

Import ItemVisibility.

(** An instance at rest has no completion callback waiting. *)
Definition settled (s : State) : Prop :=
  _isShowing s = false -> _isHiding s = false -> pending s = [].

(** The calls that only the ticker and the animator make. *)
Definition is_host_event (c : call) : bool :=
  match c with
  | Frame | AnimationFinished => true
  | _ => false
  end.

(** The number of calls without the cancel argument in a sequence. *)
Fixpoint plain_calls (es : list Debounce.event) : nat :=
  match es with
  | [] => 0%nat
  | Debounce.Call false :: es => S (plain_calls es)
  | _ :: es => plain_calls es
  end.

(** A debounced function that waits for its delay to run out. *)
Definition armed (s : Debounce.State) : bool :=
  Debounce.registered s && (0 <? Debounce.timer s).

(** A debounced function nothing is scheduled for. *)
Definition idle (s : Debounce.State) : bool :=
  negb (Debounce.registered s) && (Debounce.timer s =? 0)
  && (Debounce.lastTime s =? 0).

End Observations.

(** * Properties of the visibility state machine *)

Module VisibilityFacts.

Import ItemVisibility Examples.

(** ** The flags across the collaborators *)

Lemma flags_emit e s : flags (emit e s) = flags s.
Proof. reflexivity. Qed.

Lemma flags_emitter_on_opt cb s : flags (emitter_on_opt cb s) = flags s.
Proof. by destruct cb. Qed.

Lemma flags_emitter_burst b s : flags (emitter_burst b s) = flags s.
Proof. reflexivity. Qed.

Lemma flags_emitter_clear s : flags (emitter_clear s) = flags s.
Proof. reflexivity. Qed.

Lemma flags_call_opt cb b s : flags (call_opt cb b s) = flags s.
Proof. by destruct cb. Qed.

Lemma flags_addClass c s : flags (addClass c s) = flags s.
Proof. reflexivity. Qed.

Lemma flags_removeClass c s : flags (removeClass c s) = flags s.
Proof. reflexivity. Qed.

Lemma flags_set_display v s : flags (set_display v s) = flags s.
Proof. reflexivity. Qed.

Lemma flags_setStyles_child st s : flags (setStyles_child st s) = flags s.
Proof. reflexivity. Qed.

Lemma flags_removeCurrentStyles s : flags (_removeCurrentStyles s) = flags s.
Proof. reflexivity. Qed.

Lemma flags_cancelVisibilityTick s : flags (cancelVisibilityTick s) = flags s.
Proof. reflexivity. Qed.

Lemma flags_addVisibilityTick c s : flags (addVisibilityTick c s) = flags s.
Proof. reflexivity. Qed.

Lemma flags_animator_stop s : flags (animator_stop s) = flags s.
Proof. reflexivity. Qed.

Lemma flags_animator_start f t d e o s :
  flags (animator_start f t d e o s) = flags s.
Proof. reflexivity. Qed.

Lemma flags_animator_destroy s : flags (animator_destroy s) = flags s.
Proof. reflexivity. Qed.

Lemma flags_clear_onfinish s : flags (clear_onfinish s) = flags s.
Proof. unfold clear_onfinish. by destruct (animation s). Qed.

Lemma flags_set_grid g s : flags (set_grid g s) = flags s.
Proof. reflexivity. Qed.

Lemma flags_set_ticker t s : flags (set_ticker t s) = flags s.
Proof. reflexivity. Qed.

Lemma flags_set_animation a s : flags (set_animation a s) = flags s.
Proof. reflexivity. Qed.

Lemma flags_set_isHidden v s :
  flags (set_isHidden v s) = (v, _isHiding s, _isShowing s, _isDestroyed s).
Proof. reflexivity. Qed.

Lemma flags_set_isHiding v s :
  flags (set_isHiding v s) = (_isHidden s, v, _isShowing s, _isDestroyed s).
Proof. reflexivity. Qed.

Lemma flags_set_isShowing v s :
  flags (set_isShowing v s) = (_isHidden s, _isHiding s, v, _isDestroyed s).
Proof. reflexivity. Qed.

Lemma flags_set_isDestroyed v s :
  flags (set_isDestroyed v s) = (_isHidden s, _isHiding s, _isShowing s, v).
Proof. reflexivity. Qed.

Create Rewrite HintDb flags.

#[local] Hint Rewrite flags_emit flags_emitter_on_opt flags_emitter_burst
  flags_emitter_clear flags_call_opt flags_addClass flags_removeClass
  flags_set_display flags_setStyles_child flags_removeCurrentStyles
  flags_cancelVisibilityTick flags_addVisibilityTick flags_animator_stop
  flags_animator_start flags_animator_destroy flags_clear_onfinish
  flags_set_grid flags_set_ticker flags_set_animation flags_set_isHidden
  flags_set_isHiding flags_set_isShowing flags_set_isDestroyed : flags.

Lemma isHidden_flags s : _isHidden s = (flags s).1.1.1.
Proof. reflexivity. Qed.

Lemma isHiding_flags s : _isHiding s = (flags s).1.1.2.
Proof. reflexivity. Qed.

Lemma isShowing_flags s : _isShowing s = (flags s).1.2.
Proof. reflexivity. Qed.

Lemma isDestroyed_flags s : _isDestroyed s = (flags s).2.
Proof. reflexivity. Qed.

(** Turns every flag read into a read of [flags] and moves [flags] through
    the collaborators. *)
Ltac norm_flags :=
  repeat
    (rewrite ?isHidden_flags, ?isHiding_flags, ?isShowing_flags,
       ?isDestroyed_flags;
     autorewrite with flags).

(** Case analysis on the four flags of the state [s]. *)
Ltac by_flags s :=
  cbv zeta; norm_flags;
  let E := fresh "E" in
  destruct (flags s) as [[[[|] [|]] [|]] [|]] eqn:E;
  simpl; repeat (progress (norm_flags; rewrite ?E; simpl)); try done.

Lemma flags_finishShow s :
  flags (_finishShow s)
  = (_isHidden s, _isHiding s, _isShowing s && _isHidden s, _isDestroyed s).
Proof.
  unfold _finishShow. by_flags s.
Qed.

Lemma flags_finishHide s :
  flags (_finishHide s)
  = (_isHidden s, _isHiding s && negb (_isHidden s), _isShowing s,
     _isDestroyed s).
Proof.
  unfold _finishHide. by_flags s.
Qed.

(** ** Coherence of the flags is kept by every call *)

Lemma coherent_flags s s' : flags s' = flags s -> coherent s' = coherent s.
Proof.
  intros E. unfold coherent. norm_flags. by rewrite E.
Qed.

(** Closes [coherent s' = true] when [s'] is [s] behind collaborators. *)
Ltac frame_coherent H :=
  erewrite coherent_flags; [exact H | by autorewrite with flags].

Lemma coherent_exclusive s : coherent s = true -> exclusive s = true.
Proof.
  unfold coherent, exclusive. by_flags s.
Qed.

Lemma coherent_call_finish f s :
  coherent s = true -> coherent (call_finish f s) = true.
Proof.
  destruct f as [[|]|]; simpl; [| |done].
  - unfold coherent. norm_flags. rewrite flags_finishShow. by_flags s.
  - unfold coherent. norm_flags. rewrite flags_finishHide. by_flags s.
Qed.

Lemma coherent_startAnimation tv i f s :
  coherent s = true -> coherent (_startAnimation tv i f s) = true.
Proof.
  intros H. unfold _startAnimation.
  destruct (_isDestroyed s); [done|]. cbv zeta.
  destruct (if tv then visibleStyles _ else hiddenStyles _).
  - destruct (i || _).
    + apply coherent_call_finish. frame_coherent H.
    + frame_coherent H.
  - apply coherent_call_finish. frame_coherent H.
Qed.

Lemma coherent_show i cb s :
  coherent s = true -> coherent (show i cb s) = true.
Proof.
  intros H. unfold show.
  destruct (_isDestroyed s) eqn:Ed; [done|].
  destruct (negb (_isShowing s) && negb (_isHidden s));
    [frame_coherent H|].
  destruct (_isShowing s && negb i); [frame_coherent H|].
  apply coherent_startAnimation. cbv zeta.
  match goal with
  | |- context [emitter_on_opt cb ?x] =>
      assert (_isDestroyed (emitter_on_opt cb x) = false) as Ed'
  end.
  { rewrite isDestroyed_flags. autorewrite with flags.
    destruct (negb (_isShowing s)); [|exact Ed].
    destruct (negb (_isHiding _)); autorewrite with flags; exact Ed. }
  unfold coherent.
  cbn [_isHidden _isHiding _isShowing _isDestroyed set_isHidden set_isHiding
       set_isShowing].
  by rewrite Ed'.
Qed.

Lemma coherent_hide i cb s :
  coherent s = true -> coherent (hide i cb s) = true.
Proof.
  intros H. unfold hide.
  destruct (_isDestroyed s) eqn:Ed; [done|].
  destruct (negb (_isHiding s) && _isHidden s); [frame_coherent H|].
  destruct (_isHiding s && negb i); [frame_coherent H|].
  apply coherent_startAnimation. cbv zeta.
  match goal with
  | |- context [emitter_on_opt cb ?x] =>
      assert (_isDestroyed (emitter_on_opt cb x) = false) as Ed'
  end.
  { rewrite isDestroyed_flags. autorewrite with flags.
    destruct (negb (_isHiding s)); autorewrite with flags; exact Ed. }
  unfold coherent.
  cbn [_isHidden _isHiding _isShowing _isDestroyed set_isHidden set_isHiding
       set_isShowing].
  by rewrite Ed'.
Qed.

Lemma flags_stop p s : flags (stop p s) = flags s.
Proof.
  unfold stop. destruct (_isDestroyed s); [done|].
  destruct (negb _ && negb _); [done|]. cbv zeta.
  destruct p; by autorewrite with flags.
Qed.

#[local] Hint Rewrite flags_stop : flags.

Lemma flags_destroy s :
  _isDestroyed s = false -> flags (destroy s) = (true, false, false, true).
Proof.
  intros Ed. unfold destroy. rewrite Ed. cbv zeta.
  by autorewrite with flags.
Qed.

Lemma coherent_destroy s :
  coherent s = true -> coherent (destroy s) = true.
Proof.
  intros H. destruct (_isDestroyed s) eqn:Ed.
  - unfold destroy. by rewrite Ed.
  - unfold coherent. norm_flags. by rewrite flags_destroy.
Qed.

Lemma flags_readCallback c s : flags (readCallback c s).2 = flags s.
Proof.
  unfold readCallback. destruct (superseded c s); [done|].
  destruct (Item._getTranslate _ _). cbv zeta.
  by destruct (_ && _).
Qed.

Lemma flags_startIfMeasured c s : flags (startIfMeasured c s) = flags s.
Proof.
  unfold startIfMeasured. by destruct (currentStyles c).
Qed.

#[local] Hint Rewrite flags_startIfMeasured : flags.

Lemma coherent_writeCallback c s :
  coherent s = true -> coherent (writeCallback c s) = true.
Proof.
  intros H. unfold writeCallback.
  destruct (superseded c s); [done|]. cbv zeta.
  destruct (_ && _); [|frame_coherent H].
  destruct (_ || _); [|frame_coherent H].
  apply coherent_call_finish. frame_coherent H.
Qed.

Lemma coherent_frame s : coherent s = true -> coherent (frame s) = true.
Proof.
  intros H. unfold frame. destruct (ticker s) as [c|]; [|done]. cbv zeta.
  pose proof (flags_readCallback c (set_ticker None s)) as E.
  destruct (readCallback c (set_ticker None s)) as [c' s']. simpl in E.
  apply coherent_writeCallback. erewrite coherent_flags; [exact H|].
  by rewrite E.
Qed.

Lemma coherent_animationFinished s :
  coherent s = true -> coherent (animationFinished s) = true.
Proof.
  intros H. unfold animationFinished.
  destruct (animation s) as [a|]; [|done].
  apply coherent_call_finish. frame_coherent H.
Qed.

Lemma coherent_step c s : coherent s = true -> coherent (step c s) = true.
Proof.
  intros H. destruct c; simpl.
  - by apply coherent_show.
  - by apply coherent_hide.
  - erewrite coherent_flags; [exact H | apply flags_stop].
  - by apply coherent_destroy.
  - by apply (coherent_call_finish (Some FinishShow)).
  - by apply (coherent_call_finish (Some FinishHide)).
  - by apply coherent_frame.
  - by apply coherent_animationFinished.
Qed.

Lemma coherent_states cs : forall s s',
  coherent s = true -> s' ∈ states cs s -> coherent s' = true.
Proof.
  induction cs as [|c cs IH]; intros s s' H Hin; simpl in Hin.
  - apply list_elem_of_singleton in Hin. by subst.
  - apply elem_of_cons in Hin as [->|Hin]; [done|].
    eapply IH; [|exact Hin]. by apply coherent_step.
Qed.

Lemma flags_setStyles st s : flags (setStyles st s) = flags s.
Proof.
  unfold setStyles. cbv zeta.
  transitivity (flags (_removeCurrentStyles s)); [|done].
  generalize (_removeCurrentStyles s).
  induction st as [|pv l IH]; intros s1; simpl; [done|].
  by rewrite IH.
Qed.

#[local] Hint Rewrite flags_setStyles : flags.

Lemma coherent_new it g h e el child s :
  new it g h e el child = Some s -> coherent s = true.
Proof.
  unfold new. destruct child as [childStyle|]; [|done].
  intros [= <-]. unfold coherent. norm_flags. simpl.
  by destruct (Item.isActive it).
Qed.

(** ** What the finish handlers and [_startAnimation] leave alone *)

Lemma isHidden_call_finish f s : _isHidden (call_finish f s) = _isHidden s.
Proof.
  destruct f as [[|]|]; simpl; [| |done]; rewrite isHidden_flags.
  - by rewrite flags_finishShow.
  - by rewrite flags_finishHide.
Qed.

Lemma isHidden_startAnimation tv i f s :
  _isHidden (_startAnimation tv i f s) = _isHidden s.
Proof.
  unfold _startAnimation. destruct (_isDestroyed s); [done|]. cbv zeta.
  destruct (if tv then _ else _); [destruct (i || _)|];
    rewrite ?isHidden_call_finish, isHidden_flags; by autorewrite with flags.
Qed.

Lemma isHidden_hide i cb s :
  coherent s = true -> _isHidden (hide i cb s) = true.
Proof.
  unfold hide, coherent. intros H.
  destruct (_isDestroyed s) eqn:Ed.
  { by destruct (_isHidden s), (_isHiding s), (_isShowing s). }
  destruct (negb (_isHiding s) && _isHidden s) eqn:E1.
  { rewrite isHidden_flags. autorewrite with flags. simpl.
    by destruct (_isHidden s), (_isHiding s). }
  destruct (_isHiding s && negb i) eqn:E2.
  { rewrite isHidden_flags. autorewrite with flags. simpl.
    by destruct (_isHidden s), (_isHiding s), (_isShowing s). }
  cbv zeta. by rewrite isHidden_startAnimation.
Qed.

Lemma isHidden_show i cb s :
  coherent s = true -> _isDestroyed s = false ->
  _isHidden (show i cb s) = false.
Proof.
  unfold show, coherent. intros H ->.
  destruct (negb (_isShowing s) && negb (_isHidden s)) eqn:E1.
  { rewrite isHidden_flags. autorewrite with flags. simpl.
    by destruct (_isHidden s), (_isShowing s). }
  destruct (_isShowing s && negb i) eqn:E2.
  { rewrite isHidden_flags. autorewrite with flags. simpl.
    by destruct (_isHidden s), (_isHiding s), (_isShowing s). }
  cbv zeta. by rewrite isHidden_startAnimation.
Qed.

Lemma ticker_call_finish f s : ticker (call_finish f s) = ticker s.
Proof.
  destruct f as [[|]|]; simpl; [| |done].
  - unfold _finishShow. by destruct (_isHidden s).
  - unfold _finishHide. by destruct (_isHidden s).
Qed.

Lemma animation_call_finish f s : animation (call_finish f s) = animation s.
Proof.
  destruct f as [[|]|]; simpl; [| |done].
  - unfold _finishShow. by destruct (_isHidden s).
  - unfold _finishHide. by destruct (_isHidden s).
Qed.

Lemma childElement_call_finish f s :
  childElement (call_finish f s) = childElement s.
Proof.
  destruct f as [[|]|]; simpl; [| |done].
  - unfold _finishShow. by destruct (_isHidden s).
  - unfold _finishHide. by destruct (_isHidden s).
Qed.

Lemma public_after_destroy c s :
  _isDestroyed s = true -> is_public c = true -> step c s = s.
Proof.
  intros Hd Hp. destruct c; try done; simpl.
  - unfold show. by rewrite Hd.
  - unfold hide. by rewrite Hd.
  - unfold stop. by rewrite Hd.
  - unfold destroy. by rewrite Hd.
Qed.

(** ** Invocations in the log *)

Lemma invocations_app l1 l2 :
  invocations (l1 ++ l2) = invocations l1 ++ invocations l2.
Proof. apply omap_app. Qed.

Lemma invocations_burst b ls :
  invocations (map (fun cb => Invoke cb b) ls)
  = map (fun cb => (cb, b)) ls.
Proof.
  induction ls as [|cb ls IH]; simpl; [done|]. by rewrite <- IH.
Qed.

Lemma finishShow_bursts s :
  _isHidden s = false ->
  let s' := _finishShow s in
  invocations (log s')
  = invocations (log s) ++ map (fun cb => (cb, false)) (pending s)
  /\ pending s' = []
  /\ flags s' = (false, _isHiding s, false, _isDestroyed s).
Proof.
  intros Hh. unfold _finishShow. rewrite Hh. cbv zeta. split_and!.
  - unfold emitter_burst; simpl.
    by rewrite invocations_app, invocations_burst.
  - unfold pending, Emitter.listeners; simpl. by rewrite lookup_delete_eq.
  - autorewrite with flags. by rewrite Hh.
Qed.

(** ** The claims about the state machine *)

(** C1.  For every instance the constructor builds and every sequence of
    calls to [show], [hide], [stop], [destroy], [_finishShow] and
    [_finishHide], with frames of the ticker and ends of the animation in
    between, no state on the way has [_isHiding] and [_isShowing] both
    set. *)
Theorem hiding_and_showing_exclude it g h e el child s0 cs :
  new it g h e el child = Some s0 ->
  Forall (fun s => _isHiding s && _isShowing s = false) (states cs s0).
Proof.
  intros Hnew. apply Forall_forall. intros s Hin.
  apply coherent_new in Hnew.
  pose proof (coherent_exclusive _ (coherent_states _ _ _ Hnew Hin)) as E.
  unfold exclusive in E. by destruct (_ && _).
Qed.

(** C1 on the instance of [ex_item], through a hide, a show that preempts
    it, a frame, an instant hide, a stop, a late animation end and the
    destruction. *)
Lemma hiding_and_showing_exclude_witness :
  new ex_item ex_grid ex_host ∅ ex_element (Some ∅) = Some ex_visible
  /\ Forall (fun s => _isHiding s && _isShowing s = false)
       (states [Hide false (Some 1%nat); Show false (Some 2%nat); Frame;
                Hide true None; Stop true; AnimationFinished; Destroy]
          ex_visible).
Proof.
  split; [reflexivity|].
  apply (hiding_and_showing_exclude ex_item ex_grid ex_host ∅ ex_element
           (Some ∅)).
  reflexivity.
Defined.

(** C2, as the code has it.  [show(true, cb2)] on an instance that is not
    destroyed and is showing does not interrupt the queue.  It appends [cb2],
    finishes the show within the call and bursts the whole queue with
    [isInterrupted = false]: the callbacks invoked by the call are the
    pending ones in registration order and then [cb2], each with [false].
    Afterwards nothing is pending and the instance is visible. *)
Theorem show_instant_while_showing cb2 s :
  _isDestroyed s = false -> _isShowing s = true -> _isHidden s = false ->
  let s' := show true (Some cb2) s in
  invocations (log s')
  = invocations (log s) ++ map (fun cb => (cb, false)) (pending s ++ [cb2])
  /\ pending s' = []
  /\ flags s' = (false, false, false, false).
Proof.
  intros Hd Hs Hh. unfold show. rewrite Hd, Hs, Hh. simpl.
  set (s1 := set_isHiding _ _).
  assert (pending s1 = pending s ++ [cb2]) as Hp.
  { subst s1. unfold pending, emitter_on, Emitter.on, Emitter.listeners.
    simpl. by rewrite lookup_insert_eq. }
  assert (invocations (log s1) = invocations (log s)) as Hl by done.
  assert (_isHidden s1 = false) as Hh1 by done.
  assert (_isHiding s1 = false) as Hhi by done.
  assert (_isDestroyed s1 = false) as Hde by done.
  clearbody s1. unfold _startAnimation. rewrite Hde.
  cbv zeta. simpl (true || _).
  destruct (visibleStyles _) as [targetStyles|].
  - destruct (finishShow_bursts
                (animator_stop
                   (setStyles_child targetStyles (cancelVisibilityTick s1))))
      as (El & Ep & Ef); [exact Hh1|].
    simpl call_finish. rewrite El, Ep, Ef. split_and!.
    + unfold animator_stop, cancelVisibilityTick, emit; simpl.
      rewrite !invocations_app; simpl. rewrite !app_nil_r, Hl.
      do 2 f_equal. exact Hp.
    + done.
    + simpl. by rewrite Hhi, Hde.
  - destruct (finishShow_bursts (animator_stop s1)) as (El & Ep & Ef);
      [exact Hh1|].
    simpl call_finish. rewrite El, Ep, Ef. split_and!.
    + unfold animator_stop, emit; simpl.
      rewrite !invocations_app; simpl. rewrite !app_nil_r, Hl.
      do 2 f_equal. exact Hp.
    + done.
    + simpl. by rewrite Hhi, Hde.
Qed.

(** C2 as amended, on [ex_showing] with callback [1] pending. *)
Lemma show_instant_while_showing_witness :
  _isShowing ex_showing = true
  /\ invocations (log (show true (Some 2%nat) ex_showing))
     = [(1%nat, false); (2%nat, false)]
  /\ pending (show true (Some 2%nat) ex_showing) = [].
Proof.
  split; [reflexivity|].
  destruct (show_instant_while_showing 2%nat ex_showing) as (H1 & H2 & _);
    [reflexivity | reflexivity | reflexivity |].
  split; [exact H1 | exact H2].
Defined.

(** C2 as stated fails.  On [ex_showing], where callback [1] is pending,
    [show(true, 2)] calls [2] with [isInterrupted = false] without any
    earlier call of [1] with [isInterrupted = true]. *)
Lemma show_instant_does_not_interrupt :
  _isDestroyed ex_showing = false
  /\ _isShowing ex_showing = true
  /\ pending ex_showing = [1%nat]
  /\ ~ interrupted_before 1%nat 2%nat
        (invocations (log (show true (Some 2%nat) ex_showing))).
Proof.
  split_and!; try reflexivity.
  intros H. specialize (H [(1%nat, false)] []).
  apply list_elem_of_singleton in H; [discriminate | reflexivity].
Qed.

(** C3.  [show(instant, onFinish)] on an instance that is not destroyed and
    is visible (neither showing nor hidden) calls [onFinish(false, item)]
    before it returns and does nothing else: the log gains that one call and
    every other field of the state, the flags and the queue among them, is
    as it was. *)
Theorem show_when_visible instant cb s :
  _isDestroyed s = false -> _isShowing s = false -> _isHidden s = false ->
  let s' := show instant (Some cb) s in
  log s' = log s ++ [Invoke cb false] /\ s' = set_log (log s') s.
Proof.
  intros Hd Hs Hh. unfold show. rewrite Hd, Hs, Hh. simpl. done.
Qed.

(** C3 on [ex_visible]. *)
Lemma show_when_visible_witness :
  _isDestroyed ex_visible = false
  /\ log (show false (Some 5%nat) ex_visible)
     = log ex_visible ++ [Invoke 5%nat false]
  /\ show false (Some 5%nat) ex_visible
     = set_log (log (show false (Some 5%nat) ex_visible)) ex_visible.
Proof.
  split; [reflexivity|].
  apply (show_when_visible false 5%nat ex_visible); reflexivity.
Defined.

(** C4.  [show(false, onFinish)] on an instance that is not destroyed and is
    showing appends [onFinish] to the completion queue and returns.  The
    other queues of the emitter are untouched and the state differs from the
    old one in the emitter only: flags, classes, display, ticker, animator
    and log are unchanged. *)
Theorem show_when_showing cb s :
  _isDestroyed s = false -> _isShowing s = true ->
  let s' := show false (Some cb) s in
  pending s' = pending s ++ [cb]
  /\ (forall key, key ≠ _queue s -> emitter s' !! key = emitter s !! key)
  /\ s' = set_emitter (emitter s') s.
Proof.
  intros Hd Hs. unfold show. rewrite Hd, Hs. simpl.
  unfold pending, emitter_on, Emitter.on, Emitter.listeners. simpl.
  split_and!.
  - by rewrite lookup_insert_eq.
  - intros key Hk. by rewrite lookup_insert_ne.
  - done.
Qed.

(** C4 on [ex_showing], where callback [1] is pending. *)
Lemma show_when_showing_witness :
  _isShowing ex_showing = true
  /\ pending (show false (Some 2%nat) ex_showing) = [1%nat; 2%nat]
  /\ show false (Some 2%nat) ex_showing
     = set_emitter (emitter (show false (Some 2%nat) ex_showing)) ex_showing.
Proof.
  split; [reflexivity|].
  destruct (show_when_showing 2%nat ex_showing) as (H1 & _ & H3);
    [reflexivity | reflexivity |].
  split; [exact H1 | exact H3].
Defined.

(** C5.  On an instance that is not destroyed, [stop(processCallbackQueue)]
    returns the state as it is when the instance is neither hiding nor
    showing.  Otherwise it removes the tick registered for the item's id and
    stops the animator, and it bursts the completion queue with
    [isInterrupted = true] exactly when [processCallbackQueue] is [true];
    nothing else changes. *)
Theorem stop_cases p s :
  _isDestroyed s = false ->
  let s' := stop p s in
  (_isHiding s = false -> _isShowing s = false -> s' = s)
  /\ (_isHiding s || _isShowing s = true ->
      ticker s' = None
      /\ animation s' = None
      /\ log s' = log s ++ [TickCancel (Item.id (item s)); AnimatorStop]
                   ++ (if p then map (fun cb => Invoke cb true) (pending s)
                       else [])
      /\ pending s' = (if p then [] else pending s)
      /\ s' = set_log (log s')
                (set_emitter (emitter s')
                   (set_animation None (set_ticker None s)))).
Proof.
  intros Hd. unfold stop. rewrite Hd. split.
  - by intros -> ->.
  - intros H. replace (negb (_isHiding s) && negb (_isShowing s)) with false
      by (by destruct (_isHiding s), (_isShowing s)).
    cbv zeta. unfold pending, Emitter.listeners.
    destruct p; simpl; split_and!;
      rewrite ?lookup_delete_eq, ?app_nil_r, <- ?app_assoc; try done;
      unfold emitter_burst, animator_stop, cancelVisibilityTick, emit;
      simpl; by rewrite ?app_nil_r, <- ?app_assoc.
Qed.

(** C5 on [ex_visible], which is at rest, and on [ex_showing]. *)
Lemma stop_cases_witness :
  stop true ex_visible = ex_visible
  /\ ticker (stop true ex_showing) = None
  /\ animation (stop true ex_showing) = None
  /\ log (stop true ex_showing)
     = log ex_showing ++ [TickCancel 7; AnimatorStop; Invoke 1%nat true]
  /\ pending (stop false ex_showing) = [1%nat].
Proof.
  destruct (stop_cases true ex_visible) as [H1 _]; [reflexivity|].
  destruct (stop_cases true ex_showing) as [_ H2]; [reflexivity|].
  destruct (stop_cases false ex_showing) as [_ H3]; [reflexivity|].
  destruct H2 as (Ht & Ha & Hl & _); [reflexivity|].
  destruct H3 as (_ & _ & _ & Hp & _); [reflexivity|].
  split_and!.
  - apply H1; reflexivity.
  - exact Ht.
  - exact Ha.
  - exact Hl.
  - exact Hp.
Defined.

(** C6.  On any state an instance can reach, [destroy()] leaves the flags at
    hidden, not hiding, not showing (and destroyed), and from then on every
    sequence of calls to [show], [hide], [stop] and [destroy] returns the
    state unchanged.  The methods are total functions: there is no error
    path. *)
Theorem destroy_is_terminal it g h e el child s0 cs :
  new it g h e el child = Some s0 ->
  let d := destroy (run cs s0) in
  flags d = (true, false, false, true)
  /\ forall cs', forallb is_public cs' = true -> run cs' d = d.
Proof.
  intros Hnew d.
  assert (coherent d = true) as Hc.
  { apply coherent_destroy.
    apply (coherent_states cs s0); [by eapply coherent_new|].
    clear. revert s0. induction cs as [|c cs IH]; intros s; simpl.
    - apply list_elem_of_singleton. done.
    - right. apply IH. }
  assert (_isDestroyed d = true) as Hd.
  { subst d. destruct (_isDestroyed (run cs s0)) eqn:E.
    - unfold destroy. by rewrite E.
    - rewrite isDestroyed_flags. by rewrite flags_destroy. }
  split.
  - revert Hc Hd. unfold coherent. clear. generalize d. intros s.
    unfold flags.
    by destruct (_isHidden s), (_isHiding s), (_isShowing s),
      (_isDestroyed s).
  - induction cs' as [|c cs' IH]; simpl; [done|].
    intros [Hp Hps]%andb_prop. rewrite public_after_destroy by done. auto.
Qed.

(** C6 on [ex_showing], destroyed in the middle of a show. *)
Lemma destroy_is_terminal_witness :
  new ex_item ex_grid ex_host ∅ ex_element (Some ∅) = Some ex_visible
  /\ flags (destroy ex_showing) = (true, false, false, true)
  /\ run [Show true (Some 3%nat); Hide false None; Stop true; Destroy]
       (destroy ex_showing) = destroy ex_showing.
Proof.
  assert (new ex_item ex_grid ex_host ∅ ex_element (Some ∅)
          = Some ex_visible) as Hnew by reflexivity.
  split; [exact Hnew|].
  destruct (destroy_is_terminal _ _ _ _ _ _ _
              [Hide true None; Show false (Some 1%nat)] Hnew) as [Hf Hrun].
  split; [exact Hf|].
  apply Hrun. reflexivity.
Defined.

(** C7, as the code has it.  In the WRITE callback of a transition that was
    not superseded, when animation windowing is on, the translate position
    captured by the READ callback is outside the viewport grown by the
    threshold, and moreover the item is not active or its layout position is
    outside as well, the target styles are set on the child element, the
    animator is stopped and the finish handler is called; no animation is
    running afterwards.  The test is the same for show and for hide. *)
Theorem write_skips_when_out_of_view c s :
  superseded c s = false ->
  _animationWindowing (settings (grid s)) = true ->
  current_outside c s = true ->
  Item.isActive (item s) = false \/ target_outside s = true ->
  let s' := writeCallback c s in
  s' = finishWithoutAnimation c s
  /\ animation s' = None
  /\ childElement s' = setStyles_util (targetStyles c) (childElement s).
Proof.
  intros Hsup Hwin Hcur Htgt.
  assert (writeCallback c s = finishWithoutAnimation c s) as E.
  { unfold writeCallback. rewrite Hsup. cbv zeta.
    unfold current_outside, target_outside, outside in *.
    rewrite Hwin, Hcur. simpl.
    destruct Htgt as [-> | ->]; [done|]. by rewrite orb_true_r. }
  cbv zeta. rewrite E. unfold finishWithoutAnimation. split_and!.
  - done.
  - by rewrite animation_call_finish.
  - by rewrite childElement_call_finish.
Qed.

(** C7 as amended, on a hiding item that left the layout and is drawn left
    of the viewport. *)
Lemma write_skips_when_out_of_view_witness :
  superseded ex_hide_closure ex_hiding_gone = false
  /\ current_outside ex_hide_closure ex_hiding_gone = true
  /\ Item.isActive (item ex_hiding_gone) = false
  /\ writeCallback ex_hide_closure ex_hiding_gone
     = finishWithoutAnimation ex_hide_closure ex_hiding_gone
  /\ animation (writeCallback ex_hide_closure ex_hiding_gone) = None.
Proof.
  destruct (write_skips_when_out_of_view ex_hide_closure ex_hiding_gone)
    as (H1 & H2 & _);
    [reflexivity | reflexivity | reflexivity | left; reflexivity |].
  split_and!.
  - reflexivity.
  - reflexivity.
  - reflexivity.
  - exact H1.
  - exact H2.
Defined.

(** Otherwise the WRITE callback goes on to [animator.start]. *)
Lemma write_animates_otherwise c s :
  superseded c s = false ->
  _animationWindowing (settings (grid s)) = false
  \/ current_outside c s = false
  \/ (Item.isActive (item s) = true /\ target_outside s = false) ->
  writeCallback c s = startIfMeasured c s.
Proof.
  intros Hsup H. unfold writeCallback. rewrite Hsup. cbv zeta.
  unfold current_outside, target_outside, outside in *.
  destruct H as [-> | [-> | [-> ->]]]; simpl.
  - done.
  - by rewrite andb_false_r.
  - by destruct (_ && _).
Qed.

(** C7 as stated fails.  In the frame of [ex_showing] the item is active,
    windowing is on and the layout position, the relevant one for a show, is
    outside the viewport; the item is drawn inside it, and the WRITE callback
    starts the animation instead of finishing. *)
Lemma show_target_outside_still_animates :
  let c := ex_between_phases.1 in
  let s := ex_between_phases.2 in
  frame ex_showing = writeCallback c s
  /\ superseded c s = false
  /\ _animationWindowing (settings (grid s)) = true
  /\ toVisible c = true
  /\ relevant_outside c s = true
  /\ writeCallback c s <> finishWithoutAnimation c s
  /\ animation (writeCallback c s)
     = Some {| propsFrom := [("opacity", "1"); ("transform", "1")];
               propsTo := [("opacity", "1"); ("transform", "scale(1)")];
               anim_duration := 300; anim_easing := "ease";
               onfinish := Some FinishShow |}
  /\ _isShowing (writeCallback c s) = true.
Proof.
  cbv zeta. split_and!.
  - reflexivity.
  - reflexivity.
  - reflexivity.
  - reflexivity.
  - reflexivity.
  - intros E. apply (f_equal animation) in E. vm_compute in E.
    discriminate.
  - reflexivity.
  - reflexivity.
Qed.

(** C9, as the code has it.  When [_startAnimation] runs on an instance that
    is not destroyed and the target style set is [undefined], the animator is
    stopped and the finish handler is called at once; the ticker and the
    styles of the child element are as before and no animation is
    running. *)
Theorem startAnimation_without_target tv instant f s :
  _isDestroyed s = false ->
  target_of tv s = None ->
  let s' := _startAnimation tv instant f s in
  s' = call_finish f (animator_stop s)
  /\ ticker s' = ticker s
  /\ childElement s' = childElement s
  /\ animation s' = None.
Proof.
  intros Hd Ht.
  assert (_startAnimation tv instant f s = call_finish f (animator_stop s))
    as E.
  { unfold _startAnimation. rewrite Hd. cbv zeta.
    unfold target_of in Ht. by rewrite Ht. }
  cbv zeta. rewrite E. split_and!.
  - done.
  - by rewrite ticker_call_finish.
  - by rewrite childElement_call_finish.
  - by rewrite animation_call_finish.
Qed.

(** C9 as amended, on [ex_showing] in a grid without style sets. *)
Lemma startAnimation_without_target_witness :
  _isDestroyed ex_showing_none = false
  /\ target_of true ex_showing_none = None
  /\ _startAnimation true false (Some FinishShow) ex_showing_none
     = _finishShow (animator_stop ex_showing_none)
  /\ ticker (_startAnimation true false (Some FinishShow) ex_showing_none)
     = ticker ex_showing_none.
Proof.
  destruct (startAnimation_without_target true false (Some FinishShow)
              ex_showing_none) as (H1 & H2 & _); [reflexivity | reflexivity |].
  split_and!.
  - reflexivity.
  - reflexivity.
  - exact H1.
  - exact H2.
Defined.

(** C9 as stated fails for the empty style set.  An empty object is not
    [undefined]: with a positive duration and no [instant] flag
    [_startAnimation] cancels the old tick and registers a new one, the
    finish handler is not called and the callback stays pending. *)
Lemma startAnimation_with_empty_target_registers :
  let s := ex_showing_empty in
  let s' := _startAnimation true false (Some FinishShow) s in
  _isDestroyed s = false
  /\ target_of true s = Some []
  /\ s' <> call_finish (Some FinishShow) (animator_stop s)
  /\ log s' = log s ++ [TickCancel 7; TickAdd 7]
  /\ ticker s'
     = Some {| toVisible := true; targetStyles := []; duration := 300;
               easing := "ease"; onFinish := Some FinishShow;
               currentStyles := None; tX := 0; tY := 0 |}
  /\ _isShowing s' = true
  /\ pending s' = [1%nat].
Proof.
  cbv zeta. split_and!.
  - reflexivity.
  - reflexivity.
  - intros E. apply (f_equal _isShowing) in E. vm_compute in E.
    discriminate.
  - vm_compute. reflexivity.
  - vm_compute. reflexivity.
  - vm_compute. reflexivity.
  - vm_compute. reflexivity.
Qed.

(** C10.  [_finishShow] returns the state unchanged whenever [_isHidden] is
    set, and [_finishHide] whenever it is not.  So a finish signal of a show
    that arrives after a [hide] call changes nothing, and neither does the
    finish signal of a hide after a [show] call on a live instance. *)
Theorem stale_finish_is_ignored s :
  (_isHidden s = true -> _finishShow s = s)
  /\ (_isHidden s = false -> _finishHide s = s)
  /\ (forall i cb, coherent s = true ->
        _finishShow (hide i cb s) = hide i cb s)
  /\ (forall i cb, coherent s = true -> _isDestroyed s = false ->
        _finishHide (show i cb s) = show i cb s).
Proof.
  split_and!.
  - intros H. unfold _finishShow. by rewrite H.
  - intros H. unfold _finishHide. by rewrite H.
  - intros i cb H. unfold _finishShow. by rewrite isHidden_hide.
  - intros i cb H Hd. unfold _finishHide. by rewrite isHidden_show.
Qed.

(** C10 on [ex_hiding] and [ex_showing]. *)
Lemma stale_finish_is_ignored_witness :
  _isHidden ex_hiding = true
  /\ _finishShow ex_hiding = ex_hiding
  /\ _isHidden ex_showing = false
  /\ _finishHide ex_showing = ex_showing
  /\ _finishShow (hide false None ex_showing) = hide false None ex_showing
  /\ _finishHide (show false None ex_hiding) = show false None ex_hiding.
Proof.
  destruct (stale_finish_is_ignored ex_hiding) as (H1 & _ & _ & H4).
  destruct (stale_finish_is_ignored ex_showing) as (_ & H2 & H3 & _).
  split_and!.
  - reflexivity.
  - apply H1. reflexivity.
  - reflexivity.
  - apply H2. reflexivity.
  - apply H3. reflexivity.
  - apply H4; reflexivity.
Defined.

(** * Further properties of the visibility state machine *)

Import ItemMethods Observations.

Lemma coherent_run cs : forall s,
  coherent s = true -> coherent (run cs s) = true.
Proof.
  induction cs as [|c cs IH]; intros s H; simpl; [done|].
  by apply IH, coherent_step.
Qed.

(** X1.  What an item reports about itself is consistent in every state an
    instance can reach: a showing item is visible, a hiding item is not, and
    a destroyed instance reports hidden and at rest. *)
Theorem item_status_consistent it g h e el child s0 cs :
  new it g h e el child = Some s0 ->
  let s := run cs s0 in
  (isShowing s = true -> isVisible s = true)
  /\ (isHiding s = true -> isVisible s = false)
  /\ (_isDestroyed s = true ->
      isVisible s = false /\ isShowing s = false /\ isHiding s = false).
Proof.
  intros Hnew. cbv zeta.
  pose proof (coherent_run cs s0 (coherent_new _ _ _ _ _ _ _ Hnew)) as H.
  revert H. unfold coherent, isShowing, isHiding, isVisible.
  generalize (run cs s0). intros s.
  by destruct (_isHidden s), (_isHiding s), (_isShowing s),
    (_isDestroyed s).
Qed.

Lemma item_status_consistent_witness :
  new ex_item ex_grid ex_host ∅ ex_element (Some ∅) = Some ex_visible
  /\ (isShowing ex_showing = true -> isVisible ex_showing = true)
  /\ (isHiding ex_showing = true -> isVisible ex_showing = false).
Proof.
  assert (new ex_item ex_grid ex_host ∅ ex_element (Some ∅)
          = Some ex_visible) as Hnew by reflexivity.
  split; [exact Hnew|].
  destruct (item_status_consistent _ _ _ _ _ _ _
              [Hide true None; Show false (Some 1%nat)] Hnew)
    as (H1 & H2 & _).
  split; [exact H1 | exact H2].
Defined.

(** X2.  [hide(instant, onFinish)] on an instance that is not destroyed and
    is hidden and at rest calls [onFinish(false, item)] before it returns and
    changes nothing but the log. *)
Theorem hide_when_hidden instant cb s :
  _isDestroyed s = false -> _isHiding s = false -> _isHidden s = true ->
  let s' := hide instant (Some cb) s in
  log s' = log s ++ [Invoke cb false] /\ s' = set_log (log s') s.
Proof.
  intros Hd Hs Hh. unfold hide. rewrite Hd, Hs, Hh. simpl. done.
Qed.

Lemma hide_when_hidden_witness :
  _isHidden (hide true None ex_visible) = true
  /\ log (hide false (Some 4%nat) (hide true None ex_visible))
     = log (hide true None ex_visible) ++ [Invoke 4%nat false].
Proof.
  split; [reflexivity|].
  apply (hide_when_hidden false 4%nat (hide true None ex_visible));
    reflexivity.
Defined.

(** X3.  [hide(false, onFinish)] on an instance that is not destroyed and is
    hiding appends [onFinish] to the completion queue and changes nothing
    else: no other queue, no flag, no tick, no animation, no log entry. *)
Theorem hide_when_hiding cb s :
  _isDestroyed s = false -> _isHiding s = true ->
  let s' := hide false (Some cb) s in
  pending s' = pending s ++ [cb]
  /\ (forall key, key ≠ _queue s -> emitter s' !! key = emitter s !! key)
  /\ s' = set_emitter (emitter s') s.
Proof.
  intros Hd Hs. unfold hide. rewrite Hd, Hs. simpl.
  unfold pending, emitter_on, Emitter.on, Emitter.listeners. simpl.
  split_and!.
  - by rewrite lookup_insert_eq.
  - intros key Hk. by rewrite lookup_insert_ne.
  - done.
Qed.

Lemma hide_when_hiding_witness :
  _isHiding ex_hiding = true
  /\ pending (hide false (Some 2%nat) ex_hiding) = [1%nat; 2%nat].
Proof.
  split; [reflexivity|].
  destruct (hide_when_hiding 2%nat ex_hiding) as (H1 & _);
    [reflexivity | reflexivity |].
  exact H1.
Defined.

(** ** The ticker and the animator after a stop *)

Lemma ticker_startIfMeasured c s : ticker (startIfMeasured c s) = ticker s.
Proof. unfold startIfMeasured. by destruct (currentStyles c). Qed.

Lemma ticker_writeCallback c s : ticker (writeCallback c s) = ticker s.
Proof.
  unfold writeCallback. destruct (superseded c s); [done|]. cbv zeta.
  destruct (_ && _); [|apply ticker_startIfMeasured].
  destruct (_ || _); [|apply ticker_startIfMeasured].
  by rewrite ticker_call_finish.
Qed.

Lemma ticker_readCallback c s : ticker (readCallback c s).2 = ticker s.
Proof.
  unfold readCallback. destruct (superseded c s); [done|].
  destruct (Item._getTranslate _ _). cbv zeta.
  by destruct (_ && _).
Qed.

Lemma ticker_frame s : ticker (frame s) = None.
Proof.
  unfold frame. destruct (ticker s) as [c|] eqn:E; [|done]. cbv zeta.
  pose proof (ticker_readCallback c (set_ticker None s)) as Hr.
  destruct (readCallback c (set_ticker None s)) as [c' s']. simpl in Hr.
  by rewrite ticker_writeCallback.
Qed.

(** X4.  A registered tick runs once: a second frame right after a frame
    finds nothing to run and leaves the state as it is. *)
Theorem frame_runs_once s : frame (frame s) = frame s.
Proof.
  unfold frame at 1. by rewrite ticker_frame.
Qed.

Lemma host_event_without_work c s :
  is_host_event c = true -> ticker s = None -> animation s = None ->
  step c s = s.
Proof.
  intros Hc Ht Ha. destruct c; try done; simpl.
  - unfold frame. by rewrite Ht.
  - unfold animationFinished. by rewrite Ha.
Qed.

(** X5.  [stop] freezes a transition without settling it.  On an instance
    that is not destroyed and is hiding or showing, the flags after
    [stop(processCallbackQueue)] are the flags before it, and whatever
    frames of the ticker and ends of the animation follow, the state stays
    as [stop] left it: no finish handler runs any more. *)
Theorem stop_freezes p s cs :
  _isDestroyed s = false ->
  _isHiding s || _isShowing s = true ->
  forallb is_host_event cs = true ->
  flags (stop p s) = flags s /\ run cs (stop p s) = stop p s.
Proof.
  intros Hd Ht Hcs. split; [apply flags_stop|].
  assert (ticker (stop p s) = None /\ animation (stop p s) = None)
    as [Hk Ha].
  { unfold stop. rewrite Hd.
    replace (negb (_isHiding s) && negb (_isShowing s)) with false
      by (by destruct (_isHiding s), (_isShowing s)).
    cbv zeta. by destruct p. }
  revert Hcs. generalize dependent (stop p s). intros s' Hk Ha.
  induction cs as [|c cs IH]; simpl; [done|].
  intros [Hc Hcs]%andb_prop.
  rewrite host_event_without_work by done. auto.
Qed.

Lemma stop_freezes_witness :
  _isShowing (stop true ex_showing) = true
  /\ run [Frame; AnimationFinished; Frame] (stop true ex_showing)
     = stop true ex_showing.
Proof.
  destruct (stop_freezes true ex_showing [Frame; AnimationFinished; Frame])
    as [Hf Hr]; [reflexivity | reflexivity | reflexivity |].
  split; [|exact Hr].
  apply (f_equal (fun f => f.1.2)) in Hf. exact Hf.
Defined.

(** ** Nothing waits on an instance at rest *)

Lemma pending_emitter_burst b s : pending (emitter_burst b s) = [].
Proof.
  unfold pending, emitter_burst, Emitter.burst, Emitter.listeners.
  cbn [emitter _queue set_emitter set_log]. by rewrite lookup_delete_eq.
Qed.

Lemma settled_call_finish f s : settled s -> settled (call_finish f s).
Proof.
  intros H. destruct f as [[|]|]; simpl; [| |exact H].
  - unfold _finishShow. destruct (_isHidden s); [exact H|].
    intros _ _. apply pending_emitter_burst.
  - unfold _finishHide. destruct (negb (_isHidden s)); [exact H|].
    intros _ _. apply pending_emitter_burst.
Qed.

Lemma settled_startAnimation tv i f s :
  settled s -> settled (_startAnimation tv i f s).
Proof.
  intros H. unfold _startAnimation.
  destruct (_isDestroyed s); [exact H|]. cbv zeta.
  destruct (if tv then visibleStyles _ else hiddenStyles _).
  - destruct (i || _).
    + apply settled_call_finish. exact H.
    + unfold clear_onfinish. cbn [animation cancelVisibilityTick emit
        set_log set_ticker]. destruct (animation s); exact H.
  - apply settled_call_finish. exact H.
Qed.

Lemma settled_show i cb s : settled s -> settled (show i cb s).
Proof.
  intros H. unfold show.
  destruct (_isDestroyed s); [exact H|].
  destruct (negb (_isShowing s) && negb (_isHidden s)).
  { destruct cb; exact H. }
  destruct (_isShowing s && negb i) eqn:E.
  { apply andb_prop in E as [E _]. intros Hs.
    destruct cb; simpl in Hs; congruence. }
  cbv zeta. apply settled_startAnimation. intros Hs.
  cbn [_isShowing set_isHiding set_isHidden set_isShowing] in Hs.
  discriminate.
Qed.

Lemma settled_hide i cb s : settled s -> settled (hide i cb s).
Proof.
  intros H. unfold hide.
  destruct (_isDestroyed s); [exact H|].
  destruct (negb (_isHiding s) && _isHidden s).
  { destruct cb; exact H. }
  destruct (_isHiding s && negb i) eqn:E.
  { apply andb_prop in E as [E _]. intros _ Hs.
    destruct cb; simpl in Hs; congruence. }
  cbv zeta. apply settled_startAnimation. intros _ Hs.
  cbn [_isHiding set_isHiding set_isHidden set_isShowing] in Hs.
  discriminate.
Qed.

Lemma settled_stop p s : settled s -> settled (stop p s).
Proof.
  intros H. unfold stop.
  destruct (_isDestroyed s); [exact H|].
  destruct (negb _ && negb _); [exact H|]. cbv zeta.
  destruct p; [|exact H]. intros _ _. apply pending_emitter_burst.
Qed.

Lemma pending_destroy s : _isDestroyed s = false -> pending (destroy s) = [].
Proof.
  intros Hd. unfold destroy. rewrite Hd. cbv zeta.
  change (pending (emitter_clear (stop true s)) = []).
  unfold pending, emitter_clear, Emitter.clear, Emitter.listeners.
  cbn [emitter _queue set_emitter]. by rewrite lookup_delete_eq.
Qed.

Lemma settled_destroy s : settled s -> settled (destroy s).
Proof.
  intros H. destruct (_isDestroyed s) eqn:Hd.
  - unfold destroy. by rewrite Hd.
  - intros _ _. by apply pending_destroy.
Qed.

Lemma settled_readCallback c s : settled s -> settled (readCallback c s).2.
Proof.
  intros H. unfold readCallback. destruct (superseded c s); [exact H|].
  destruct (Item._getTranslate _ _). cbv zeta.
  destruct (_ && _); exact H.
Qed.

Lemma settled_writeCallback c s : settled s -> settled (writeCallback c s).
Proof.
  intros H. unfold writeCallback.
  destruct (superseded c s); [exact H|]. cbv zeta.
  assert (settled (startIfMeasured c s)) as Hm.
  { unfold startIfMeasured. destruct (currentStyles c); exact H. }
  destruct (_ && _); [|exact Hm].
  destruct (_ || _); [|exact Hm].
  apply settled_call_finish. exact H.
Qed.

Lemma settled_step c s : settled s -> settled (step c s).
Proof.
  intros H. destruct c; simpl.
  - by apply settled_show.
  - by apply settled_hide.
  - by apply settled_stop.
  - by apply settled_destroy.
  - by apply (settled_call_finish (Some FinishShow)).
  - by apply (settled_call_finish (Some FinishHide)).
  - unfold frame. destruct (ticker s) as [c|]; [|exact H]. cbv zeta.
    pose proof (settled_readCallback c (set_ticker None s) H) as Hr.
    destruct (readCallback c (set_ticker None s)) as [c' s'].
    by apply settled_writeCallback.
  - unfold animationFinished. destruct (animation s); [|exact H].
    apply settled_call_finish. exact H.
Qed.

Lemma pending_setStyles st s : pending (setStyles st s) = pending s.
Proof.
  unfold setStyles. cbv zeta.
  transitivity (pending (_removeCurrentStyles s)); [|done].
  generalize (_removeCurrentStyles s).
  induction st as [|pv l IH]; intros s1; simpl; [done|].
  by rewrite IH.
Qed.

(** X6.  An instance at rest keeps no completion callback waiting.  For an
    instance built on a fresh emitter and every sequence of calls, frames
    and animation ends, whenever the instance is neither showing nor hiding
    its completion queue is empty. *)
Theorem at_rest_nothing_pending it g h el child s0 cs :
  new it g h ∅ el child = Some s0 ->
  let s := run cs s0 in
  _isShowing s = false -> _isHiding s = false -> pending s = [].
Proof.
  intros Hnew. cbv zeta.
  assert (settled s0) as H0.
  { unfold new in Hnew. destruct child as [childStyle|]; [|done].
    injection Hnew as <-. intros _ _. rewrite pending_setStyles.
    unfold pending, Emitter.listeners. simpl. by rewrite lookup_empty. }
  clear Hnew. revert s0 H0.
  induction cs as [|c cs IH]; intros s0 H0; simpl; [exact H0|].
  by apply IH, settled_step.
Qed.

Lemma at_rest_nothing_pending_witness :
  new ex_item ex_grid ex_host ∅ ex_element (Some ∅) = Some ex_visible
  /\ pending (run [Hide false (Some 1%nat); Show false (Some 2%nat);
                   Show true (Some 3%nat)] ex_visible) = [].
Proof.
  assert (new ex_item ex_grid ex_host ∅ ex_element (Some ∅)
          = Some ex_visible) as Hnew by reflexivity.
  split; [exact Hnew|].
  apply (at_rest_nothing_pending _ _ _ _ _ _
           [Hide false (Some 1%nat); Show false (Some 2%nat);
            Show true (Some 3%nat)] Hnew); vm_compute; reflexivity.
Defined.

(** ** Transitions that end within the call *)

Lemma finishHide_bursts s :
  _isHidden s = true ->
  let s' := _finishHide s in
  invocations (log s')
  = invocations (log s) ++ map (fun cb => (cb, false)) (pending s)
  /\ pending s' = []
  /\ flags s' = (true, false, _isShowing s, _isDestroyed s)
  /\ element s' = {| classList := classList (element s);
                     style_display := "none" |}
  /\ animation s' = animation s.
Proof.
  intros Hh. unfold _finishHide. rewrite Hh. cbn [negb]. cbv zeta.
  split_and!.
  - unfold emitter_burst; simpl.
    rewrite !invocations_app, invocations_burst. simpl.
    by rewrite app_nil_r.
  - apply pending_emitter_burst.
  - autorewrite with flags. by rewrite Hh.
  - done.
  - done.
Qed.

(** With the instant flag or a duration that is not positive,
    [_startAnimation] calls the finish handler on a state that differs from
    the given one in styles, ticker, animator and log, but not in flags,
    emitter, element or the callbacks invoked so far. *)
Lemma startAnimation_instant (tv i : bool) (f : option finish)
    (s : State) :
  _isDestroyed s = false ->
  i || ((if tv then showDuration (settings (grid s))
         else hideDuration (settings (grid s))) <=? 0) = true ->
  exists s2,
    _startAnimation tv i f s = call_finish f s2
    /\ flags s2 = flags s
    /\ emitter s2 = emitter s
    /\ _queue s2 = _queue s
    /\ element s2 = element s
    /\ invocations (log s2) = invocations (log s)
    /\ animation s2 = None.
Proof.
  intros Hd Hi. unfold _startAnimation. rewrite Hd. cbv zeta. rewrite Hi.
  destruct (if tv then visibleStyles _ else hiddenStyles _) as [t|].
  - eexists. split; [reflexivity|]. split_and!; try done.
    unfold animator_stop, cancelVisibilityTick, emit; simpl.
    rewrite !invocations_app; simpl. by rewrite !app_nil_r.
  - eexists. split; [reflexivity|]. split_and!; try done.
    unfold animator_stop, emit; simpl.
    rewrite !invocations_app; simpl. by rewrite !app_nil_r.
Qed.

Lemma pending_same s s' :
  emitter s' = emitter s -> _queue s' = _queue s -> pending s' = pending s.
Proof. unfold pending. by intros -> ->. Qed.

(** X7.  An instant hide interrupts and settles.  [hide(instant, cb)] with
    the instant flag, or with a hide duration that is not positive, on a
    live instance that is visible or showing calls every pending callback
    with [isInterrupted = true], in registration order, and then [cb] with
    [false], all within the call.  Afterwards the instance is hidden and at
    rest, nothing is pending, no animation runs, the element has
    [display: none] and carries the hidden class in place of the visible
    one. *)
Theorem hide_instant_settles i cb s :
  _isDestroyed s = false -> _isHiding s = false -> _isHidden s = false ->
  i || (hideDuration (settings (grid s)) <=? 0) = true ->
  let s' := hide i (Some cb) s in
  invocations (log s')
  = invocations (log s) ++ map (fun c => (c, true)) (pending s)
      ++ [(cb, false)]
  /\ pending s' = []
  /\ flags s' = (true, false, false, false)
  /\ animation s' = None
  /\ element s'
     = {| classList :=
            ({[itemHiddenClass (settings (grid s))]} ∪ classList (element s))
            ∖ {[itemVisibleClass (settings (grid s))]};
          style_display := "none" |}.
Proof.
  intros Hd Hhi Hh Hi. unfold hide. rewrite Hd, Hhi, Hh. simpl.
  set (s1 := set_isShowing _ _).
  assert (pending s1 = [cb]) as Hp.
  { subst s1. unfold pending, emitter_on, emitter_burst, Emitter.on,
      Emitter.burst, Emitter.listeners. simpl.
    by rewrite lookup_insert_eq, lookup_delete_eq. }
  assert (invocations (log s1)
          = invocations (log s) ++ map (fun c => (c, true)) (pending s))
    as Hl.
  { subst s1. unfold emitter_burst; simpl.
    by rewrite invocations_app, invocations_burst. }
  assert (flags s1 = (true, true, false, false)) as Hf.
  { subst s1. unfold flags; simpl. by rewrite Hd. }
  assert (element s1
          = {| classList :=
                 ({[itemHiddenClass (settings (grid s))]}
                  ∪ classList (element s))
                 ∖ {[itemVisibleClass (settings (grid s))]};
               style_display := style_display (element s) |}) as He
    by done.
  assert (grid s1 = grid s) as Hg by done.
  clearbody s1.
  destruct (startAnimation_instant false i (Some FinishHide) s1)
    as (s2 & -> & Hf2 & He2 & Hq2 & Hel2 & Hl2 & Ha2).
  { rewrite isDestroyed_flags. by rewrite Hf. }
  { by rewrite Hg. }
  simpl call_finish.
  destruct (finishHide_bursts s2) as (El & Ep & Ef & Ee & Ea).
  { rewrite isHidden_flags. by rewrite Hf2, Hf. }
  rewrite El, Ep, Ef, Ee, Ea, Hl2, Hl, Hel2, He, Ha2.
  rewrite (pending_same s1 s2), Hp by done.
  rewrite isShowing_flags, isDestroyed_flags, Hf2, Hf. simpl.
  split_and!; try done. by rewrite <- app_assoc.
Qed.

Lemma hide_instant_settles_witness :
  _isHidden ex_showing = false
  /\ invocations (log (hide true (Some 2%nat) ex_showing))
     = [(1%nat, true); (2%nat, false)]
  /\ flags (hide true (Some 2%nat) ex_showing) = (true, false, false, false)
  /\ style_display (element (hide true (Some 2%nat) ex_showing)) = "none".
Proof.
  destruct (hide_instant_settles true 2%nat ex_showing)
    as (H1 & _ & H3 & _ & H5);
    [reflexivity | reflexivity | reflexivity | reflexivity |].
  split_and!.
  - reflexivity.
  - exact H1.
  - exact H3.
  - exact (f_equal style_display H5).
Defined.

Lemma element_finishShow s : element (_finishShow s) = element s.
Proof. unfold _finishShow. by destruct (_isHidden s). Qed.

(** X8.  An instant show interrupts and settles.  [show(instant, cb)] with
    the instant flag, or with a show duration that is not positive, on a
    live instance that is hidden or hiding calls every pending callback with
    [isInterrupted = true], in registration order, and then [cb] with
    [false], all within the call.  Afterwards the instance is visible and at
    rest, nothing is pending and no animation runs; the element carries the
    visible class in place of the hidden one, and its [display] is reset
    unless the item was still hiding. *)
Theorem show_instant_settles i cb s :
  _isDestroyed s = false -> _isShowing s = false -> _isHidden s = true ->
  i || (showDuration (settings (grid s)) <=? 0) = true ->
  let s' := show i (Some cb) s in
  invocations (log s')
  = invocations (log s) ++ map (fun c => (c, true)) (pending s)
      ++ [(cb, false)]
  /\ pending s' = []
  /\ flags s' = (false, false, false, false)
  /\ animation s' = None
  /\ element s'
     = {| classList :=
            {[itemVisibleClass (settings (grid s))]}
            ∪ (classList (element s)
               ∖ {[itemHiddenClass (settings (grid s))]});
          style_display :=
            if _isHiding s then style_display (element s)
            else EmptyString |}.
Proof.
  intros Hd Hsh Hh Hi. unfold show. rewrite Hd, Hsh, Hh. simpl.
  set (s1 := set_isHiding _ _).
  assert (pending s1 = [cb]) as Hp.
  { subst s1. unfold pending, emitter_on, emitter_burst, Emitter.on,
      Emitter.burst, Emitter.listeners.
    destruct (_isHiding s); simpl;
      by rewrite lookup_insert_eq, lookup_delete_eq. }
  assert (invocations (log s1)
          = invocations (log s) ++ map (fun c => (c, true)) (pending s))
    as Hl.
  { subst s1. unfold emitter_burst.
    destruct (_isHiding s); simpl;
      by rewrite invocations_app, invocations_burst. }
  assert (flags s1 = (false, false, true, false)) as Hf.
  { subst s1. unfold flags.
    destruct (_isHiding s); simpl; by rewrite Hd. }
  assert (element s1
          = {| classList :=
                 {[itemVisibleClass (settings (grid s))]}
                 ∪ (classList (element s)
                    ∖ {[itemHiddenClass (settings (grid s))]});
               style_display :=
                 if _isHiding s then style_display (element s)
                 else EmptyString |}) as He.
  { subst s1. by destruct (_isHiding s). }
  assert (grid s1 = grid s) as Hg.
  { subst s1. by destruct (_isHiding s). }
  clearbody s1.
  destruct (startAnimation_instant true i (Some FinishShow) s1)
    as (s2 & -> & Hf2 & He2 & Hq2 & Hel2 & Hl2 & Ha2).
  { rewrite isDestroyed_flags. by rewrite Hf. }
  { by rewrite Hg. }
  simpl call_finish.
  destruct (finishShow_bursts s2) as (El & Ep & Ef).
  { rewrite isHidden_flags. by rewrite Hf2, Hf. }
  rewrite El, Ep, Ef, Hl2, Hl, element_finishShow, Hel2, He.
  rewrite (animation_call_finish (Some FinishShow)), Ha2.
  rewrite (pending_same s1 s2), Hp by done.
  rewrite isHiding_flags, isDestroyed_flags, Hf2, Hf. simpl.
  split_and!; try done. by rewrite <- app_assoc.
Qed.

Lemma show_instant_settles_witness :
  _isHidden ex_hiding = true
  /\ invocations (log (show true (Some 2%nat) ex_hiding))
     = [(1%nat, true); (2%nat, false)]
  /\ flags (show true (Some 2%nat) ex_hiding) = (false, false, false, false).
Proof.
  destruct (show_instant_settles true 2%nat ex_hiding)
    as (H1 & _ & H3 & _);
    [reflexivity | reflexivity | reflexivity | reflexivity |].
  split_and!.
  - reflexivity.
  - exact H1.
  - exact H3.
Defined.

(** ** Transitions that run through the ticker and the animator *)

(** X9.  A new transition silences the animation that is still running.
    When [_startAnimation] takes the animated path (a defined target style
    set, no instant flag, a positive duration) on a live instance, the end of
    whatever animation was running before reaches no finish handler: it only
    releases the animation handle. *)
Theorem restart_silences_running_animation tv f t s :
  _isDestroyed s = false ->
  target_of tv s = Some t ->
  0 < (if tv then showDuration (settings (grid s))
       else hideDuration (settings (grid s))) ->
  let s' := _startAnimation tv false f s in
  animationFinished s' = set_animation None s'.
Proof.
  intros Hd Ht Hdur. unfold target_of in Ht.
  destruct s as [hid hiding showing destr props q it g h e el ch an tk lg].
  simpl in Hd, Ht, Hdur. subst destr.
  unfold _startAnimation; simpl. rewrite Ht.
  replace (_ <=? 0) with false by lia.
  unfold animationFinished, clear_onfinish; simpl.
  destruct an; reflexivity.
Qed.

Lemma restart_silences_running_animation_witness :
  animation (frame ex_showing) <> None
  /\ animationFinished
       (_startAnimation false false (Some FinishHide) (frame ex_showing))
     = set_animation None
         (_startAnimation false false (Some FinishHide) (frame ex_showing)).
Proof.
  split; [vm_compute; discriminate|].
  apply (restart_silences_running_animation false (Some FinishHide)
           [("opacity", "0"); ("transform", "scale(0.5)")]
           (frame ex_showing)).
  - vm_compute. reflexivity.
  - vm_compute. reflexivity.
  - vm_compute. reflexivity.
Defined.

Lemma frame_starts c s :
  ticker s = Some c ->
  superseded c s = false ->
  _animationWindowing (settings (grid s)) = false ->
  frame s
  = animator_start (getCurrentStyles (host s) (targetStyles c))
      (targetStyles c) (duration c) (easing c) (onFinish c)
      (set_ticker None s).
Proof.
  intros Ht Hs Hw. unfold frame. rewrite Ht. cbv zeta.
  unfold readCallback.
  change (superseded c (set_ticker None s)) with (superseded c s).
  rewrite Hs.
  change (host (set_ticker None s)) with (host s).
  change (item (set_ticker None s)) with (item s).
  change (grid (set_ticker None s)) with (grid s).
  destruct (Item._getTranslate (host s) (item s)) as [x y].
  rewrite Hw. cbn [andb].
  unfold writeCallback, superseded in *.
  cbn [toVisible _isDestroyed _isShowing _isHiding set_ticker grid] in *.
  by rewrite Hs, Hw.
Qed.

Lemma frame_drops c s :
  ticker s = Some c -> superseded c s = true -> frame s = set_ticker None s.
Proof.
  intros Ht Hs. unfold frame. rewrite Ht. cbv zeta.
  unfold readCallback.
  change (superseded c (set_ticker None s)) with (superseded c s).
  rewrite Hs. unfold writeCallback.
  change (superseded c (set_ticker None s)) with (superseded c s).
  by rewrite Hs.
Qed.

(** X10.  What a frame does with a registered tick.  When the transition it
    belongs to was superseded (the instance is destroyed, or no longer
    showing for a show tick, no longer hiding for a hide tick) the frame
    only drops the registration.  Otherwise, with windowing off, it measures
    the current styles and starts the animation towards the target styles
    with the transition's own duration, easing and finish handler. *)
Theorem frame_drops_or_starts c s :
  ticker s = Some c ->
  (superseded c s = true -> frame s = set_ticker None s)
  /\ (superseded c s = false ->
      _animationWindowing (settings (grid s)) = false ->
      let s' := frame s in
      ticker s' = None
      /\ animation s'
         = Some {| propsFrom := getCurrentStyles (host s) (targetStyles c);
                   propsTo := targetStyles c;
                   anim_duration := duration c;
                   anim_easing := easing c;
                   onfinish := onFinish c |}
      /\ flags s' = flags s
      /\ pending s' = pending s
      /\ invocations (log s') = invocations (log s)).
Proof.
  intros Ht. split.
  - by apply frame_drops.
  - intros Hs Hw. cbv zeta. rewrite (frame_starts c s Ht Hs Hw).
    split_and!; try done.
    unfold animator_start, emit; simpl.
    rewrite invocations_app; simpl. by rewrite app_nil_r.
Qed.

Lemma frame_drops_or_starts_witness :
  is_Some (animation (frame ex_showing_empty))
  /\ ticker (frame ex_showing_empty) = None
  /\ frame (hide true None (with_settings ex_settings_none ex_showing))
     = set_ticker None
         (hide true None (with_settings ex_settings_none ex_showing)).
Proof.
  assert (exists c, ticker ex_showing_empty = Some c) as [c Hc]
    by (eexists; vm_compute; reflexivity).
  destruct (frame_drops_or_starts c ex_showing_empty Hc) as [_ H1].
  assert (exists c', ticker (hide true None
            (with_settings ex_settings_none ex_showing)) = Some c')
    as [c' Hc'] by (eexists; vm_compute; reflexivity).
  destruct (frame_drops_or_starts c' _ Hc') as [H2 _].
  destruct H1 as (Hk & Ha & _).
  { vm_compute in Hc. injection Hc as <-. vm_compute. reflexivity. }
  { vm_compute. reflexivity. }
  split_and!.
  - rewrite Ha. by eexists.
  - exact Hk.
  - apply H2. vm_compute in Hc'. injection Hc' as <-.
    vm_compute. reflexivity.
Defined.

Lemma show_registers cb t s :
  _isDestroyed s = false -> _isShowing s = false -> _isHidden s = true ->
  visibleStyles (settings (grid s)) = Some t ->
  0 < showDuration (settings (grid s)) ->
  let s1 := show false (Some cb) s in
  flags s1 = (false, false, true, false)
  /\ pending s1 = [cb]
  /\ invocations (log s1)
     = invocations (log s) ++ map (fun c => (c, true)) (pending s)
  /\ ticker s1
     = Some {| toVisible := true; targetStyles := t;
               duration := showDuration (settings (grid s));
               easing := showEasing (settings (grid s));
               onFinish := Some FinishShow;
               currentStyles := None; tX := 0; tY := 0 |}
  /\ settings (grid s1) = settings (grid s)
  /\ host s1 = host s.
Proof.
  intros Hd Hsh Hh Ht Hdur.
  destruct s as [hid hiding showing destr props q it g h e el ch an tk lg].
  destruct g as [st rl rt bl bt nr].
  simpl in Hd, Hsh, Hh, Ht, Hdur. subst destr showing hid.
  assert ((showDuration st <=? 0) = false) as Hle by lia.
  cbv zeta. unfold pending, Emitter.listeners, flags.
  destruct hiding, an as [a|]; unfold show; simpl;
    unfold _startAnimation; simpl; rewrite Ht, Hle; simpl;
    unfold Emitter.on, Emitter.listeners;
    rewrite lookup_insert_eq, lookup_delete_eq; simpl;
    rewrite !invocations_app, invocations_burst; simpl;
    by rewrite !app_nil_r.
Qed.

Lemma hide_registers cb t s :
  _isDestroyed s = false -> _isHiding s = false -> _isHidden s = false ->
  hiddenStyles (settings (grid s)) = Some t ->
  0 < hideDuration (settings (grid s)) ->
  let s1 := hide false (Some cb) s in
  flags s1 = (true, true, false, false)
  /\ pending s1 = [cb]
  /\ invocations (log s1)
     = invocations (log s) ++ map (fun c => (c, true)) (pending s)
  /\ ticker s1
     = Some {| toVisible := false; targetStyles := t;
               duration := hideDuration (settings (grid s));
               easing := hideEasing (settings (grid s));
               onFinish := Some FinishHide;
               currentStyles := None; tX := 0; tY := 0 |}
  /\ settings (grid s1) = settings (grid s)
  /\ host s1 = host s.
Proof.
  intros Hd Hhi Hh Ht Hdur.
  destruct s as [hid hiding showing destr props q it g h e el ch an tk lg].
  destruct g as [st rl rt bl bt nr].
  simpl in Hd, Hhi, Hh, Ht, Hdur. subst destr hiding hid.
  assert ((hideDuration st <=? 0) = false) as Hle by lia.
  cbv zeta. unfold pending, Emitter.listeners, flags.
  destruct an as [a|]; unfold hide; simpl;
    unfold _startAnimation; simpl; rewrite Ht, Hle; simpl;
    unfold Emitter.on, Emitter.listeners;
    rewrite lookup_insert_eq, lookup_delete_eq; simpl;
    rewrite !invocations_app, invocations_burst; simpl;
    by rewrite !app_nil_r.
Qed.

(** X11.  An animated show runs to completion.  On a live instance that is
    hidden, with a defined visible style set, a positive show duration and
    windowing off, [show(false, cb)] interrupts the pending callbacks,
    leaves [cb] alone in the queue and registers a tick; the next frame
    starts the animation; and when the animation ends the instance is
    visible and at rest, nothing is pending, and [cb] has been called with
    [isInterrupted = false], after the interrupted callbacks. *)
Theorem show_runs_to_completion cb t s :
  _isDestroyed s = false -> _isShowing s = false -> _isHidden s = true ->
  visibleStyles (settings (grid s)) = Some t ->
  0 < showDuration (settings (grid s)) ->
  _animationWindowing (settings (grid s)) = false ->
  let s1 := show false (Some cb) s in
  let s2 := frame s1 in
  let s3 := animationFinished s2 in
  (flags s1 = (false, false, true, false) /\ pending s1 = [cb]
   /\ is_Some (ticker s1))
  /\ (flags s2 = (false, false, true, false) /\ pending s2 = [cb]
      /\ ticker s2 = None /\ is_Some (animation s2))
  /\ (flags s3 = (false, false, false, false) /\ pending s3 = []
      /\ ticker s3 = None /\ animation s3 = None
      /\ invocations (log s3)
         = invocations (log s) ++ map (fun c => (c, true)) (pending s)
             ++ [(cb, false)]).
Proof.
  intros Hd Hsh Hh Ht Hdur Hw.
  destruct (show_registers cb t s Hd Hsh Hh Ht Hdur)
    as (Hf & Hp & Hl & Hk & Hst & _).
  cbv zeta. set (s1 := show false (Some cb) s) in *. clearbody s1.
  assert (frame s1 = animator_start (getCurrentStyles (host s1) t) t
            (showDuration (settings (grid s)))
            (showEasing (settings (grid s))) (Some FinishShow)
            (set_ticker None s1)) as ->.
  { rewrite (frame_starts _ s1 Hk); [done| |by rewrite Hst].
    unfold superseded. rewrite isDestroyed_flags, isShowing_flags, Hf.
    done. }
  set (s2 := animator_start _ _ _ _ _ _).
  assert (animationFinished s2 = _finishShow (set_animation None s2))
    as -> by done.
  destruct (finishShow_bursts (set_animation None s2)) as (El & Ep & Ef).
  { change (_isHidden s1 = false). by rewrite isHidden_flags, Hf. }
  assert (invocations (log (set_animation None s2)) = invocations (log s1))
    as Hl2.
  { subst s2. simpl. rewrite invocations_app. simpl.
    by rewrite app_nil_r. }
  change (pending (set_animation None s2)) with (pending s1) in El.
  change (_isHiding (set_animation None s2)) with (_isHiding s1) in Ef.
  change (_isDestroyed (set_animation None s2)) with (_isDestroyed s1)
    in Ef.
  rewrite isHiding_flags, isDestroyed_flags, Hf in Ef.
  rewrite Hl2, Hp, Hl, <- app_assoc in El.
  split_and!.
  - exact Hf.
  - exact Hp.
  - by rewrite Hk.
  - exact Hf.
  - exact Hp.
  - done.
  - by eexists.
  - exact Ef.
  - exact Ep.
  - by rewrite (ticker_call_finish (Some FinishShow)).
  - by rewrite (animation_call_finish (Some FinishShow)).
  - exact El.
Qed.

Lemma show_runs_to_completion_witness :
  let s := with_settings ex_settings_empty (hide true None ex_visible) in
  _isHidden s = true
  /\ flags (animationFinished (frame (show false (Some 1%nat) s)))
     = (false, false, false, false)
  /\ invocations (log (animationFinished
                         (frame (show false (Some 1%nat) s))))
     = [(1%nat, false)].
Proof.
  cbv zeta.
  destruct (show_runs_to_completion 1%nat []
              (with_settings ex_settings_empty (hide true None ex_visible)))
    as (_ & _ & Hf & _ & _ & _ & Hl); try (vm_compute; reflexivity).
  split_and!.
  - reflexivity.
  - exact Hf.
  - exact Hl.
Defined.

Lemma log_finishHide s :
  _isHidden s = true ->
  log (_finishHide s)
  = log s ++ LayoutStop :: map (fun cb => Invoke cb false) (pending s).
Proof.
  intros Hh. unfold _finishHide. rewrite Hh. cbn [negb]. cbv zeta.
  unfold emitter_burst, Emitter.burst, pending; simpl.
  by rewrite <- app_assoc.
Qed.

Lemma hide_completes cb t s :
  _isDestroyed s = false -> _isHiding s = false -> _isHidden s = false ->
  hiddenStyles (settings (grid s)) = Some t ->
  0 < hideDuration (settings (grid s)) ->
  _animationWindowing (settings (grid s)) = false ->
  let s1 := hide false (Some cb) s in
  let s2 := frame s1 in
  let s3 := animationFinished s2 in
  (flags s1 = (true, true, false, false) /\ pending s1 = [cb]
   /\ is_Some (ticker s1))
  /\ (flags s2 = (true, true, false, false) /\ pending s2 = [cb]
      /\ ticker s2 = None /\ is_Some (animation s2))
  /\ (flags s3 = (true, false, false, false) /\ pending s3 = []
      /\ ticker s3 = None /\ animation s3 = None
      /\ style_display (element s3) = "none"
      /\ log s3 = log s2 ++ [LayoutStop; Invoke cb false]
      /\ invocations (log s3)
         = invocations (log s) ++ map (fun c => (c, true)) (pending s)
             ++ [(cb, false)]).
Proof.
  intros Hd Hhi Hh Ht Hdur Hw.
  destruct (hide_registers cb t s Hd Hhi Hh Ht Hdur)
    as (Hf & Hp & Hl & Hk & Hst & _).
  cbv zeta. set (s1 := hide false (Some cb) s) in *. clearbody s1.
  assert (frame s1 = animator_start (getCurrentStyles (host s1) t) t
            (hideDuration (settings (grid s)))
            (hideEasing (settings (grid s))) (Some FinishHide)
            (set_ticker None s1)) as ->.
  { rewrite (frame_starts _ s1 Hk); [done| |by rewrite Hst].
    unfold superseded. rewrite isDestroyed_flags, isHiding_flags, Hf.
    done. }
  set (s2 := animator_start _ _ _ _ _ _).
  assert (animationFinished s2 = _finishHide (set_animation None s2))
    as -> by done.
  assert (_isHidden (set_animation None s2) = true) as Hh2.
  { change (_isHidden s1 = true). by rewrite isHidden_flags, Hf. }
  destruct (finishHide_bursts _ Hh2) as (El & Ep & Ef & Ee & Ea).
  pose proof (log_finishHide _ Hh2) as Elog.
  assert (invocations (log (set_animation None s2)) = invocations (log s1))
    as Hl2.
  { subst s2. simpl. rewrite invocations_app. simpl.
    by rewrite app_nil_r. }
  change (pending (set_animation None s2)) with (pending s1) in El, Elog.
  change (log (set_animation None s2)) with (log s2) in Elog.
  change (_isShowing (set_animation None s2)) with (_isShowing s1) in Ef.
  change (_isDestroyed (set_animation None s2)) with (_isDestroyed s1)
    in Ef.
  rewrite isShowing_flags, isDestroyed_flags, Hf in Ef.
  rewrite Hl2, Hp, Hl, <- app_assoc in El. rewrite Hp in Elog.
  split_and!.
  - exact Hf.
  - exact Hp.
  - by rewrite Hk.
  - exact Hf.
  - exact Hp.
  - done.
  - by eexists.
  - exact Ef.
  - exact Ep.
  - by rewrite (ticker_call_finish (Some FinishHide)).
  - by rewrite Ea.
  - by rewrite Ee.
  - exact Elog.
  - exact El.
Qed.

(** X12.  An animated hide runs to completion.  On a live instance that is
    visible or showing, with a defined hidden style set, a positive hide
    duration and windowing off, [hide(false, cb)] interrupts the pending
    callbacks and registers a tick; the next frame starts the animation; and
    when the animation ends the layout handler is stopped and [cb] is called
    with [isInterrupted = false]: the instance is then hidden and at rest
    and the element has [display: none]. *)
Theorem hide_runs_to_completion cb t s :
  _isDestroyed s = false -> _isHiding s = false -> _isHidden s = false ->
  hiddenStyles (settings (grid s)) = Some t ->
  0 < hideDuration (settings (grid s)) ->
  _animationWindowing (settings (grid s)) = false ->
  let s1 := hide false (Some cb) s in
  let s2 := frame s1 in
  let s3 := animationFinished s2 in
  (flags s1 = (true, true, false, false) /\ pending s1 = [cb]
   /\ is_Some (ticker s1))
  /\ (flags s2 = (true, true, false, false) /\ pending s2 = [cb]
      /\ ticker s2 = None /\ is_Some (animation s2))
  /\ (flags s3 = (true, false, false, false) /\ pending s3 = []
      /\ ticker s3 = None /\ animation s3 = None
      /\ style_display (element s3) = "none"
      /\ log s3 = log s2 ++ [LayoutStop; Invoke cb false]
      /\ invocations (log s3)
         = invocations (log s) ++ map (fun c => (c, true)) (pending s)
             ++ [(cb, false)]).
Proof.
  intros Hd Hhi Hh Ht Hdur Hw. cbv zeta.
  destruct (hide_completes cb t s Hd Hhi Hh Ht Hdur Hw) as (H1 & H2 & H3).
  split; [exact H1|]. split; [exact H2 | exact H3].
Qed.

Lemma hide_runs_to_completion_witness :
  let s := with_settings ex_settings_empty ex_showing in
  _isHidden s = false
  /\ flags (animationFinished (frame (hide false (Some 2%nat) s)))
     = (true, false, false, false)
  /\ invocations (log (animationFinished
                         (frame (hide false (Some 2%nat) s))))
     = [(1%nat, true); (2%nat, false)].
Proof.
  cbv zeta.
  destruct (hide_runs_to_completion 2%nat []
              (with_settings ex_settings_empty ex_showing))
    as (_ & _ & Hf & _ & _ & _ & _ & _ & Hl); try (vm_compute; reflexivity).
  split_and!.
  - reflexivity.
  - exact Hf.
  - exact Hl.
Defined.

(** ** Inline styles of the child element *)

Lemma lookup_cleared (props : list string) (m : gmap string string) p :
  foldl (fun m prop => <[prop := EmptyString]> m) m props !! p
  = if decide (p ∈ props) then Some EmptyString else m !! p.
Proof.
  revert m. induction props as [|q props IH]; intros m; simpl.
  - destruct (decide (p ∈ [])) as [Hin|Hin]; [|done].
    by apply elem_of_nil in Hin.
  - rewrite IH.
    destruct (decide (p ∈ props)) as [Hin|Hin];
      destruct (decide (p ∈ q :: props)) as [Hin'|Hin']; try done.
    + exfalso. apply Hin'. by right.
    + apply elem_of_cons in Hin' as [->|?]; [apply lookup_insert_eq|done].
    + rewrite lookup_insert_ne; [done|]. intros ->. apply Hin'. left.
Qed.







(** X15.  [destroy()] on a live instance cleans up after itself.  The
    completion queue is empty and no animation runs; every tracked inline
    style of the child element reads back the empty string, the other inline
    styles are untouched and nothing is tracked any more; the element has
    lost both visibility classes and its [display] is reset.  The callbacks
    that were pending are called with [isInterrupted = true] when the
    instance was hiding or showing (and then the tick is cancelled too);
    for an instance at rest none is called. *)
Theorem destroy_cleans_up s :
  _isDestroyed s = false ->
  let d := destroy s in
  pending d = []
  /\ animation d = None
  /\ _currentStyleProps d = []
  /\ (forall p, p ∈ _currentStyleProps s ->
        childElement d !! p = Some EmptyString)
  /\ (forall p, p ∉ _currentStyleProps s ->
        childElement d !! p = childElement s !! p)
  /\ element d
     = {| classList :=
            classList (element s)
            ∖ {[itemVisibleClass (settings (grid s))]}
            ∖ {[itemHiddenClass (settings (grid s))]};
          style_display := EmptyString |}
  /\ invocations (log d)
     = invocations (log s)
       ++ (if _isHiding s || _isShowing s
           then map (fun c => (c, true)) (pending s) else [])
  /\ (_isHiding s || _isShowing s = true -> ticker d = None).
Proof.
  intros Hd. cbv zeta.
  split; [by apply pending_destroy|].
  destruct s as [hid hiding showing destr props q it g h e el ch an tk lg].
  simpl in Hd. subst destr.
  unfold destroy, stop, pending, Emitter.listeners.
  destruct hiding, showing; simpl;
    (split_and!; try done;
     try (intros p Hp; rewrite lookup_cleared; by destruct (decide _)));
    unfold emitter_burst; simpl;
    rewrite !invocations_app, ?invocations_burst; simpl;
    by rewrite ?app_nil_r.
Qed.

Lemma destroy_cleans_up_witness :
  _isDestroyed ex_showing = false
  /\ pending (destroy ex_showing) = []
  /\ invocations (log (destroy ex_showing)) = [(1%nat, true)]
  /\ ticker (destroy ex_showing) = None
  /\ childElement (destroy ex_showing) !! "opacity" = Some EmptyString.
Proof.
  destruct (destroy_cleans_up ex_showing)
    as (H1 & _ & _ & H4 & _ & _ & H7 & H8); [reflexivity|].
  split_and!.
  - reflexivity.
  - exact H1.
  - exact H7.
  - apply H8. reflexivity.
  - apply H4. vm_compute. left.
Defined.

(** X20.  A hide that preempts a show.  On a live, hidden instance with both
    style sets defined, positive durations and windowing off: [show(false,
    cb)] followed, before any frame, by [hide(false, cb2)], then a frame and
    the end of the animation.  [cb] is called with [isInterrupted = true]
    and after it [cb2] with [false]; the instance ends hidden and at rest
    with [display: none], nothing pending, nothing registered and no
    animation running. *)
Theorem hide_preempts_show cb cb2 tv th s :
  _isDestroyed s = false -> _isShowing s = false -> _isHidden s = true ->
  visibleStyles (settings (grid s)) = Some tv ->
  0 < showDuration (settings (grid s)) ->
  hiddenStyles (settings (grid s)) = Some th ->
  0 < hideDuration (settings (grid s)) ->
  _animationWindowing (settings (grid s)) = false ->
  let s' := run [Show false (Some cb); Hide false (Some cb2); Frame;
                 AnimationFinished] s in
  flags s' = (true, false, false, false)
  /\ pending s' = []
  /\ ticker s' = None /\ animation s' = None
  /\ style_display (element s') = "none"
  /\ invocations (log s')
     = invocations (log s) ++ map (fun c => (c, true)) (pending s)
         ++ [(cb, true); (cb2, false)].
Proof.
  intros Hd Hsh Hh Hv Hsd Hhs Hhd Hw.
  destruct (show_registers cb tv s Hd Hsh Hh Hv Hsd)
    as (Hf & Hp & Hl & _ & Hst & _).
  cbv zeta. simpl run. simpl step.
  set (s1 := show false (Some cb) s) in *. clearbody s1.
  destruct (hide_completes cb2 th s1)
    as (_ & _ & Ef & Ep & Ek & Ea & Ee & _ & El).
  - by rewrite isDestroyed_flags, Hf.
  - by rewrite isHiding_flags, Hf.
  - by rewrite isHidden_flags, Hf.
  - by rewrite Hst.
  - by rewrite Hst.
  - by rewrite Hst.
  - split_and!; try done.
    rewrite El, Hl, Hp. simpl. by rewrite <- app_assoc.
Qed.

Lemma hide_preempts_show_witness :
  let s := with_settings ex_settings_empty (hide true None ex_visible) in
  _isHidden s = true
  /\ invocations
       (log (run [Show false (Some 1%nat); Hide false (Some 2%nat); Frame;
                  AnimationFinished] s))
     = [(1%nat, true); (2%nat, false)].
Proof.
  cbv zeta.
  destruct (hide_preempts_show 1%nat 2%nat [] []
              (with_settings ex_settings_empty (hide true None ex_visible)))
    as (_ & _ & _ & _ & _ & Hl); try (vm_compute; reflexivity).
  split; [reflexivity | exact Hl].
Defined.

End VisibilityFacts.

(** * Properties of the debounce adapter *)

Module DebounceFacts.

Import Debounce.

Lemma canceled_step d e s :
  isCanceled s = true ->
  isCanceled (step d e s) = true /\ fn_calls (step d e s) = fn_calls s.
Proof.
  intros Hc. destruct e as [cancel|time]; simpl.
  - unfold debouncedFn. by rewrite Hc.
  - destruct (registered s); [|done].
    unfold tick. simpl. by rewrite Hc.
Qed.

Lemma canceled_run d es : forall s,
  isCanceled s = true ->
  isCanceled (run d es s) = true /\ fn_calls (run d es s) = fn_calls s.
Proof.
  induction es as [|e es IH]; intros s Hc; simpl; [done|].
  destruct (canceled_step d e s Hc) as [Hc' Hn].
  destruct (IH _ Hc') as [Hc'' Hn']. split; [done|]. by rewrite Hn', Hn.
Qed.

Lemma run_app d es1 es2 s :
  run d (es1 ++ es2) s = run d es2 (run d es1 s).
Proof.
  revert s. induction es1 as [|e es1 IH]; intros s; simpl; [done|].
  apply IH.
Qed.

Lemma cancel_step d s :
  0 < d -> isCanceled (step d (Call true) s) = true
           /\ fn_calls (step d (Call true) s) = fn_calls s.
Proof.
  intros Hd. simpl. unfold debouncedFn.
  destruct (isCanceled s) eqn:Hc; [done|].
  by replace (d <=? 0) with false by lia.
Qed.

(** With a positive delay the action is never run again once the function
    was called with the cancel argument: whatever calls and frames of the
    ticker follow, the number of runs stays what it was. *)
Lemma cancel_is_final d before after :
  0 < d ->
  fn_calls (run d (before ++ Call true :: after) debounce)
  = fn_calls (run d before debounce).
Proof.
  intros Hd. rewrite run_app.
  change (run d (Call true :: after) (run d before debounce))
    with (run d after (step d (Call true) (run d before debounce))).
  destruct (cancel_step d (run d before debounce) Hd) as [Hc Hn].
  destruct (canceled_run d after _ Hc) as [_ ->]. exact Hn.
Qed.

(** C8 at [durationMs = 0].  A call with the cancel argument returns before
    [isCanceled] is set, and the next call runs the action. *)
Theorem cancel_with_zero_delay_is_forgotten :
  let canceled := run 0 [Call true] debounce in
  fn_calls canceled = 0%nat
  /\ isCanceled canceled = false
  /\ fn_calls (run 0 [Call false] canceled) = 1%nat.
Proof. by split_and!. Qed.

(** * Further properties of the debounce adapter *)

Import Observations.

Lemma plain_step_zero d e s :
  d <= 0 -> isCanceled s = false -> registered s = false ->
  let s' := step d e s in
  isCanceled s' = false /\ registered s' = false
  /\ fn_calls s' = (fn_calls s + plain_calls [e])%nat.
Proof.
  intros Hd Hc Hr. destruct e as [[|]|time]; simpl.
  - unfold debouncedFn. rewrite Hc. replace (d <=? 0) with true by lia.
    simpl. split_and!; [done..|lia].
  - unfold debouncedFn. rewrite Hc. replace (d <=? 0) with true by lia.
    simpl. split_and!; [done..|lia].
  - rewrite Hr. split_and!; [done..|lia].
Qed.

Lemma plain_calls_cons e es :
  plain_calls (e :: es) = (plain_calls [e] + plain_calls es)%nat.
Proof. by destruct e as [[|]|]. Qed.

(** X16.  Without a delay nothing is debounced and nothing is cancelled.
    With [durationMs <= 0] every call without the cancel argument runs the
    action at once, whatever calls with the cancel argument and frames of
    the ticker come in between; the ticker is never used. *)
Theorem zero_delay_runs_every_call d es :
  d <= 0 ->
  fn_calls (run d es debounce) = plain_calls es
  /\ registered (run d es debounce) = false.
Proof.
  intros Hd.
  assert (forall s, isCanceled s = false -> registered s = false ->
            fn_calls (run d es s) = (fn_calls s + plain_calls es)%nat
            /\ registered (run d es s) = false) as H.
  { induction es as [|e es IH]; intros s Hc Hr; simpl run.
    - split; [simpl; lia|done].
    - destruct (plain_step_zero d e s Hd Hc Hr) as (Hc' & Hr' & Hn).
      destruct (IH _ Hc' Hr') as [-> ->]. split; [|done].
      rewrite Hn, (plain_calls_cons e es). lia. }
  destruct (H debounce eq_refl eq_refl) as [-> ->]. done.
Qed.

Lemma zero_delay_runs_every_call_witness :
  fn_calls (run 0 [Call false; Call true; TickerFrame 16; Call false]
              debounce) = 2%nat.
Proof.
  destruct (zero_delay_runs_every_call 0
              [Call false; Call true; TickerFrame 16; Call false])
    as [H _]; [lia|].
  exact H.
Defined.

(** Case analysis on the integer comparisons of [tick] and [debouncedFn]. *)
Ltac zcase :=
  match goal with
  | |- context [?a <=? ?b] => destruct (Z.leb_spec a b)
  | |- context [?a <? ?b] => destruct (Z.ltb_spec a b)
  | |- context [?a =? ?b] => destruct (Z.eqb_spec a b)
  | H : context [?a <? ?b] |- _ => destruct (Z.ltb_spec a b)
  | H : context [?a =? ?b] |- _ => destruct (Z.eqb_spec a b)
  end.

(** With a positive delay a debounced function is cancelled, idle or armed,
    and stays so; the action runs at most once per arming; a call never runs
    it. *)
Lemma positive_step d e s :
  0 < d ->
  isCanceled s || (tick_defined s && (idle s || armed s)) = true ->
  let s' := step d e s in
  isCanceled s' || (tick_defined s' && (idle s' || armed s')) = true
  /\ (fn_calls s' + (if registered s' then 1 else 0)
      <= fn_calls s + (if registered s then 1 else 0)
         + plain_calls [e])%nat
  /\ (forall c, e = Call c -> fn_calls s' = fn_calls s).
Proof.
  intros Hd Hs.
  destruct s as [tm lt cn td rg n], e as [[|]|time];
    unfold idle, armed in *; cbv zeta; simpl in *;
    unfold debouncedFn, tick;
    destruct cn, td, rg; simpl in *; try discriminate;
    repeat (zcase; simpl in * ); try lia;
    (split_and!; [done || lia | lia | done || (intros; discriminate)]).
Qed.

Lemma positive_run d es : forall s,
  0 < d ->
  isCanceled s || (tick_defined s && (idle s || armed s)) = true ->
  let s' := run d es s in
  isCanceled s' || (tick_defined s' && (idle s' || armed s')) = true
  /\ (fn_calls s' + (if registered s' then 1 else 0)
      <= fn_calls s + (if registered s then 1 else 0)
         + plain_calls es)%nat.
Proof.
  induction es as [|e es IH]; intros s Hd Hs; cbv zeta; simpl run.
  - split; [done|simpl; lia].
  - destruct (positive_step d e s Hd Hs) as (Hs' & Hn & _).
    destruct (IH _ Hd Hs') as [Hs'' Hn']. split; [done|].
    rewrite (plain_calls_cons e es). cbv zeta in Hn'. lia.
Qed.

(** X17.  With a positive delay the action runs at most once per call
    without the cancel argument, whatever the sequence of calls and frames:
    a burst of calls can be answered by fewer runs, never by more. *)
Theorem runs_at_most_once_per_call d es :
  0 < d -> (fn_calls (run d es debounce) <= plain_calls es)%nat.
Proof.
  intros Hd.
  destruct (positive_run d es debounce Hd eq_refl) as [_ H].
  simpl in H. destruct (registered _); lia.
Qed.

Lemma runs_at_most_once_per_call_witness :
  (fn_calls (run 100 [Call false; TickerFrame 16; Call false;
                      TickerFrame 32; TickerFrame 200; TickerFrame 400]
               debounce) <= 2)%nat.
Proof.
  apply (runs_at_most_once_per_call 100
           [Call false; TickerFrame 16; Call false; TickerFrame 32;
            TickerFrame 200; TickerFrame 400]).
  lia.
Defined.

(** X18.  With a positive delay a call never runs the action itself: the
    action only ever runs in a frame of the ticker (trailing edge). *)
Theorem call_never_runs_action d es c :
  0 < d ->
  fn_calls (run d (es ++ [Call c]) debounce) = fn_calls (run d es debounce).
Proof.
  intros Hd. rewrite run_app.
  change (fn_calls (step d (Call c) (run d es debounce))
          = fn_calls (run d es debounce)).
  destruct (positive_run d es debounce Hd eq_refl) as [Hs _].
  destruct (positive_step d (Call c) _ Hd Hs) as (_ & _ & H).
  by apply (H c).
Qed.

Lemma call_never_runs_action_witness :
  fn_calls (run 100 [Call false; TickerFrame 16; TickerFrame 200;
                     Call false] debounce) = 1%nat.
Proof.
  transitivity (fn_calls (run 100 [Call false; TickerFrame 16;
                                   TickerFrame 200] debounce)).
  - apply (call_never_runs_action 100
             [Call false; TickerFrame 16; TickerFrame 200] false). lia.
  - reflexivity.
Defined.

Lemma step_call_idle d n :
  0 < d ->
  step d (Call false)
    {| timer := 0; lastTime := 0; isCanceled := false;
       tick_defined := true; registered := false; fn_calls := n |}
  = {| timer := d; lastTime := 0; isCanceled := false;
       tick_defined := true; registered := true; fn_calls := n |}.
Proof.
  intros Hd. simpl. unfold debouncedFn, tick. simpl.
  repeat (zcase; simpl); try lia; done.
Qed.

Lemma step_call_armed d tm lt n :
  0 < d -> 0 < tm ->
  step d (Call false)
    {| timer := tm; lastTime := lt; isCanceled := false;
       tick_defined := true; registered := true; fn_calls := n |}
  = {| timer := d; lastTime := lt; isCanceled := false;
       tick_defined := true; registered := true; fn_calls := n |}.
Proof.
  intros Hd Htm. simpl. unfold debouncedFn. simpl.
  repeat (zcase; simpl); try lia; done.
Qed.

Lemma step_frame_first d tm time n :
  0 < tm ->
  step d (TickerFrame time)
    {| timer := tm; lastTime := 0; isCanceled := false;
       tick_defined := true; registered := true; fn_calls := n |}
  = {| timer := tm; lastTime := time; isCanceled := false;
       tick_defined := true; registered := true; fn_calls := n |}.
Proof.
  intros Htm. simpl. unfold tick. simpl.
  repeat (zcase; simpl); try lia; done.
Qed.

Lemma step_frame_next d tm lt time n :
  lt <> 0 ->
  step d (TickerFrame time)
    {| timer := tm; lastTime := lt; isCanceled := false;
       tick_defined := true; registered := true; fn_calls := n |}
  = if 0 <? tm - (time - lt)
    then {| timer := tm - (time - lt); lastTime := time;
            isCanceled := false; tick_defined := true;
            registered := true; fn_calls := n |}
    else {| timer := 0; lastTime := 0; isCanceled := false;
            tick_defined := true; registered := false;
            fn_calls := S n |}.
Proof.
  intros Hlt. simpl. unfold tick. simpl.
  replace (lt =? 0) with false by lia. simpl.
  by destruct (0 <? tm - (time - lt)).
Qed.

Lemma run_cons d e es s : run d (e :: es) s = run d es (step d e s).
Proof. reflexivity. Qed.

(** X19.  The quiet period.  After a call with delay [d > 0], the first
    frame only notes its time [t0]; the action runs in the frame at [t1]
    exactly when [d <= t1 - t0].  A further call before that restarts the
    delay: the action then runs in the frame at [t2] exactly when
    [d <= t2 - t1], where [t1] is the last frame before the call. *)
Theorem quiet_period d t0 t1 t2 :
  0 < d -> t0 <> 0 -> t1 <> 0 ->
  fn_calls (run d [Call false; TickerFrame t0; TickerFrame t1] debounce)
  = (if d <=? t1 - t0 then 1%nat else 0%nat)
  /\ (t1 - t0 < d ->
      fn_calls (run d [Call false; TickerFrame t0; TickerFrame t1;
                       Call false; TickerFrame t2] debounce)
      = (if d <=? t2 - t1 then 1%nat else 0%nat)).
Proof.
  intros Hd H0 H1. unfold debounce. rewrite !run_cons.
  rewrite step_call_idle, step_frame_first, step_frame_next by done.
  split.
  - destruct (Z.ltb_spec 0 (d - (t1 - t0))), (Z.leb_spec d (t1 - t0));
      try lia; done.
  - intros Hlt. replace (0 <? d - (t1 - t0)) with true by lia.
    rewrite step_call_armed, step_frame_next by (done || lia).
    destruct (Z.ltb_spec 0 (d - (t2 - t1))), (Z.leb_spec d (t2 - t1));
      try lia; done.
Qed.

Lemma quiet_period_witness :
  fn_calls (run 100 [Call false; TickerFrame 1000; TickerFrame 1090]
              debounce) = 0%nat
  /\ fn_calls (run 100 [Call false; TickerFrame 1000; TickerFrame 1090;
                        Call false; TickerFrame 1150] debounce) = 0%nat
  /\ fn_calls (run 100 [Call false; TickerFrame 1000; TickerFrame 1100]
              debounce) = 1%nat.
Proof.
  destruct (quiet_period 100 1000 1090 1150) as [Ha Hb]; [lia..|].
  destruct (quiet_period 100 1000 1100 0) as [Hc _]; [lia..|].
  split_and!.
  - exact Ha.
  - apply Hb. lia.
  - exact Hc.
Defined.

End DebounceFacts.

(** * Properties of the item's layout membership and translate cache *)

Module ItemFacts.

Import ItemMethods Examples.

(** X21.  Layout membership.  After [_addToLayout] the item is active; an
    item that was active already is left as it is, its position included,
    while an inactive one takes the given position, zero for an omitted
    coordinate.  [_removeFromLayout] after it leaves the item inactive at
    the origin.  Neither touches the translate cache. *)
Theorem layout_membership l t it :
  let it1 := _addToLayout l t it in
  let it2 := _removeFromLayout it1 in
  Item.isActive it1 = true
  /\ (Item.isActive it = true -> it1 = it)
  /\ (Item.isActive it = false ->
      Item.left it1 = default 0 l /\ Item.top it1 = default 0 t)
  /\ Item.isActive it2 = false /\ Item.left it2 = 0 /\ Item.top it2 = 0
  /\ _removeFromLayout it2 = it2
  /\ Item._translateX it2 = Item._translateX it
  /\ Item._translateY it2 = Item._translateY it.
Proof.
  cbv zeta. unfold _addToLayout, _removeFromLayout, Item.isActive.
  destruct (Item._isActive it) eqn:E; simpl; rewrite ?E; simpl;
    split_and!; done.
Qed.

Lemma layout_membership_witness :
  _addToLayout (Some 10) None ex_item = ex_item
  /\ Item.left (_addToLayout (Some 10) None ex_item_gone) = 10
  /\ Item.top (_addToLayout (Some 10) None ex_item_gone) = 0.
Proof.
  destruct (layout_membership (Some 10) None ex_item) as (_ & H1 & _).
  destruct (layout_membership (Some 10) None ex_item_gone)
    as (_ & _ & H2 & _).
  split; [apply H1; reflexivity|]. apply H2. reflexivity.
Defined.

(** X22.  The translate cache.  After [_setTranslate(x, y)] the item reports
    [(x, y)] from [_getTranslate] without reading the DOM, whatever the DOM
    would have answered.  The transform style is written exactly when the
    cached values were not [(x, y)] already; repeating the call writes
    nothing and changes nothing. *)
Theorem translate_cache h x y it :
  let r := _setTranslate x y it in
  Item._getTranslate h r.1 = (x, y)
  /\ (r.2 = None <-> Item._translateX it = Some x
                     /\ Item._translateY it = Some y)
  /\ (r.2 <> None -> r.2 = Some (x, y))
  /\ _setTranslate x y r.1 = (r.1, None).
Proof.
  cbv zeta. unfold _setTranslate, translate_is, Item._getTranslate.
  destruct (Item._translateX it) as [a|] eqn:Ex,
           (Item._translateY it) as [b|] eqn:Ey;
    try destruct (Z.eqb_spec a x); try destruct (Z.eqb_spec b y);
    subst; simpl; rewrite ?Ex, ?Ey, ?Z.eqb_refl; simpl;
    split_and!; try done; intuition congruence.
Qed.

Lemma translate_cache_witness :
  Item._getTranslate ex_host (_setTranslate 30 40 ex_item).1 = (30, 40)
  /\ (_setTranslate 30 40 ex_item).2 = Some (30, 40)
  /\ _setTranslate 0 0 ex_item = (ex_item, None).
Proof.
  destruct (translate_cache ex_host 30 40 ex_item) as (H1 & _ & H3 & _).
  destruct (translate_cache ex_host 0 0 ex_item) as (_ & H2 & _ & _).
  split_and!.
  - exact H1.
  - apply H3. discriminate.
  - destruct H2 as [_ H2]. specialize (H2 (conj eq_refl eq_refl)).
    destruct (_setTranslate 0 0 ex_item) as [it w] eqn:E.
    simpl in H2. subst w. vm_compute in E. injection E as <-.
    reflexivity.
Defined.

End ItemFacts.
